(** * functorch/experimental/mixed_dtype.py

    A shallow embedding of the [mixed_dtype] higher-order operator and of its
    mode-specific handlers, together with the properties stated about them.

    The handlers are glue code: they read and toggle interpreter-wide state
    (the excluded dispatch keys, the stack of dispatch modes, the functorch
    interpreter stack) and call the wrapped operation.  They are embedded in a
    state-and-exception monad over an explicit [world]. *)

From Stdlib Require Import List ZArith Bool String Lia.
Import ListNotations.
Local Open Scope string_scope.
Local Open Scope Z_scope.
Local Open Scope list_scope.
Set Warnings "-register-all".

(* ================================================================= *)
(** ** Values *)

(** [torch.dtype]: the target precision. *)
Inductive dtype : Type :=
| uint8 | int8 | int16 | int32 | int64
| float16 | bfloat16 | float32 | float64 | bool_dtype.

Definition dtype_eq_dec (a b : dtype) : {a = b} + {a <> b}.
Proof. decide equality. Defined.

Definition dtype_eqb (a b : dtype) : bool :=
  if dtype_eq_dec a b then true else false.

(** The contents of a tensor.  The numeric conversion kernels are not part of
    this file, so converted contents are kept symbolic. *)
Inductive storage : Type :=
| Buffer (id : Z)
| Converted (src dst : dtype) (s : storage).

(** [torch.Tensor], with the attributes the handlers read: the dtype, the
    [requires_grad] flag, and whether the tensor is a functionalized wrapper
    around another tensor (with the wrapper's nesting level). *)
Inductive tensor : Type :=
| Dense (dt : dtype) (requires_grad : bool) (data : storage)
| FunctionalTensorWrapper (level : Z) (requires_grad : bool) (value : tensor).

Fixpoint tensor_dtype (t : tensor) : dtype :=
  match t with
  | Dense dt _ _ => dt
  | FunctionalTensorWrapper _ _ v => tensor_dtype v
  end.

Definition requires_grad (t : tensor) : bool :=
  match t with
  | Dense _ rg _ => rg
  | FunctionalTensorWrapper _ rg _ => rg
  end.

(** Modelled from the spec: [Tensor.to(dtype=...)] is missing; it "casts
    [a tensor] to the target precision".  A tensor that already has the
    requested dtype is returned as it is. *)
Fixpoint to (out_dtype : dtype) (t : tensor) : tensor :=
  match t with
  | Dense dt rg s =>
      if dtype_eqb dt out_dtype then t
      else Dense out_dtype rg (Converted dt out_dtype s)
  | FunctionalTensorWrapper l rg v =>
      FunctionalTensorWrapper l rg (to out_dtype v)
  end.

(** What the caller may pass as the wrapped operation.  Only the first kind
    is an instance of [torch._ops.OpOverload]. *)
Inductive op_kind : Type :=
| OpOverload          (* torch.ops.aten.mm.default *)
| OpOverloadPacket    (* torch.ops.aten.mm: callable, not an OpOverload *)
| PyCallable          (* any other Python callable *)
| NotCallable.        (* an object without __call__ *)

Record op_ref : Type := { op_kind_of : op_kind; op_name : string }.

Definition isinstance_OpOverload (op : op_ref) : bool :=
  match op_kind_of op with OpOverload => true | _ => false end.

(** [torch.fx.Proxy]: a reference to a node of the traced graph. *)
Record proxy : Type := { proxy_node : nat }.

(** Leaves of an argument structure. *)
Inductive leaf : Type :=
| LTensor (t : tensor)
| LInt (z : Z)
| LBool (b : bool)
| LStr (s : string)
| LNone
| LDtype (d : dtype)
| LOp (op : op_ref)
| LProxy (p : proxy).

(** [torch.utils._pytree]: lists, tuples and dicts are containers, anything
    else is a leaf.  A dict keeps its insertion order. *)
Inductive pytree : Type :=
| Leaf (l : leaf)
| PList (xs : list pytree)
| PTuple (xs : list pytree)
| PDict (kvs : list (string * pytree)).

Section pytree_induction.
Variable P : pytree -> Prop.
Hypothesis HLeaf : forall l, P (Leaf l).
Hypothesis HList : forall xs, Forall P xs -> P (PList xs).
Hypothesis HTuple : forall xs, Forall P xs -> P (PTuple xs).
Hypothesis HDict : forall kvs, Forall (fun kv => P (snd kv)) kvs -> P (PDict kvs).

Fixpoint pytree_ind' (t : pytree) : P t :=
  match t with
  | Leaf l => HLeaf l
  | PList xs =>
      HList xs ((fix go (ys : list pytree) : Forall P ys :=
                   match ys with
                   | [] => Forall_nil P
                   | y :: ys' => Forall_cons y (pytree_ind' y) (go ys')
                   end) xs)
  | PTuple xs =>
      HTuple xs ((fix go (ys : list pytree) : Forall P ys :=
                    match ys with
                    | [] => Forall_nil P
                    | y :: ys' => Forall_cons y (pytree_ind' y) (go ys')
                    end) xs)
  | PDict kvs =>
      HDict kvs ((fix go (ys : list (string * pytree))
                    : Forall (fun kv => P (snd kv)) ys :=
                    match ys with
                    | [] => Forall_nil _
                    | y :: ys' => Forall_cons y (pytree_ind' (snd y)) (go ys')
                    end) kvs)
  end.
End pytree_induction.

(** [pytree.tree_map(fn, tree)]: rebuilds the containers around the mapped
    leaves. *)
Fixpoint tree_map (fn : leaf -> leaf) (t : pytree) : pytree :=
  match t with
  | Leaf l => Leaf (fn l)
  | PList xs => PList (map (tree_map fn) xs)
  | PTuple xs => PTuple (map (tree_map fn) xs)
  | PDict kvs => PDict (map (fun kv => (fst kv, tree_map fn (snd kv))) kvs)
  end.

(** [pytree.tree_flatten(tree)[0]]: the leaves, left to right. *)
Fixpoint tree_flatten (t : pytree) : list leaf :=
  match t with
  | Leaf l => [l]
  | PList xs => flat_map tree_flatten xs
  | PTuple xs => flat_map tree_flatten xs
  | PDict kvs => flat_map (fun kv => tree_flatten (snd kv)) kvs
  end.

Definition isinstance_Tensor (l : leaf) : bool :=
  match l with LTensor _ => true | _ => false end.

(** [map_only(torch.Tensor)(fn)]: [fn] on tensors, the identity elsewhere. *)
Definition map_only_Tensor (fn : tensor -> tensor) (l : leaf) : leaf :=
  match l with
  | LTensor t => LTensor (fn t)
  | _ => l
  end.

(** [pytree.tree_map_only(torch.Tensor, fn, tree)]. *)
Definition tree_map_only_Tensor (fn : tensor -> tensor) (t : pytree) : pytree :=
  tree_map (map_only_Tensor fn) t.

(** The elements of a tuple, as [f( *t )] unpacks them. *)
Definition star (t : pytree) : list pytree :=
  match t with
  | PTuple xs => xs
  | PList xs => xs
  | _ => []
  end.

(** The shape of a structure: its containers and keys, and for every leaf
    only whether it is a tensor. *)
Inductive shape : Type :=
| STensor
| SOther (l : leaf)
| SList (xs : list shape)
| STuple (xs : list shape)
| SDict (kvs : list (string * shape)).

Fixpoint shape_of (t : pytree) : shape :=
  match t with
  | Leaf (LTensor _) => STensor
  | Leaf l => SOther l
  | PList xs => SList (map shape_of xs)
  | PTuple xs => STuple (map shape_of xs)
  | PDict kvs => SDict (map (fun kv => (fst kv, shape_of (snd kv))) kvs)
  end.

(** The tensors among the leaves, left to right. *)
Definition tensors_of (t : pytree) : list tensor :=
  flat_map (fun l => match l with LTensor x => [x] | _ => [] end) (tree_flatten t).

(** Every tensor leaf has dtype [d]. *)
Definition all_tensors_dtype (d : dtype) (t : pytree) : bool :=
  forallb (fun x => dtype_eqb (tensor_dtype x) d) (tensors_of t).

(* ================================================================= *)
(** ** The interpreter-wide state *)

(** [torch._C.DispatchKey]: the keys this file names, and the two keys under
    which the host dispatcher reaches the mode and interpreter handlers. *)
Inductive DispatchKey : Type :=
| PythonDispatcher | PythonTLSSnapshot | ADInplaceOrView | BackendSelect
| AutocastCPU | CompositeExplicitAutograd | Autograd | AutogradCPU
| Functionalize | Python | FuncTorchDynamicLayerFrontMode.

Definition DispatchKey_eq_dec (a b : DispatchKey) : {a = b} + {a <> b}.
Proof. decide equality. Defined.

Definition key_in (k : DispatchKey) (ks : list DispatchKey) : bool :=
  if in_dec DispatchKey_eq_dec k ks then true else false.

(** [torch._ops.HigherOrderOperator]: a name and the keys marked as
    fall-through. *)
Record HigherOrderOperator : Type :=
  { ho_name : string; ho_fallthrough : list DispatchKey }.

Definition new_HigherOrderOperator (name : string) : HigherOrderOperator :=
  {| ho_name := name; ho_fallthrough := [] |}.

Definition fallthrough (k : DispatchKey) (o : HigherOrderOperator)
  : HigherOrderOperator :=
  {| ho_name := ho_name o; ho_fallthrough := k :: ho_fallthrough o |}.

(** A node of the traced graph, as [tracer.create_proxy] is asked to make
    it. *)
Record node : Type :=
  { n_kind : string;
    n_target : HigherOrderOperator;
    n_args : list pytree;
    n_kwargs : list (string * pytree);
    n_name : string }.

(** The tracer of a proxy mode: the recorded graph, and the results that
    have been associated with a proxy. *)
Record tracer : Type :=
  { graph : list node; tracked : list (pytree * proxy) }.

(** The dispatch modes that can be on the mode stack. *)
Inductive mode_obj : Type :=
| ProxyTorchDispatchMode (enable_tracing : bool) (tr : tracer)
| FakeTensorMode
| OtherMode (name : string).

(** [torch._C._functorch.TransformType]. *)
Inductive TransformType : Type :=
| TT_Torch | TT_Grad | TT_Jvp | TT_Functionalize | TT_Vmap.

(** A functorch interpreter, with what the handler asks of it. *)
Record interpreter : Type :=
  { i_key : TransformType;
    i_level : Z;
    i_functionalize_add_back_views : bool }.

Inductive event : Type :=
| EvCast (out_dtype : dtype) (args : list pytree)
| EvCall (op : op_ref) (args : list pytree).

(** Mode objects are shared and mutated in place (a mode popped from the
    stack is the object that is pushed back), so the stack holds references
    into a heap of mode objects. *)
Record world : Type :=
  { tls_excluded : list DispatchKey;
    mode_stack : list nat;                    (* current mode first *)
    mode_heap : list mode_obj;
    dynamic_layer_stack : list interpreter;   (* current interpreter first *)
    reapply_views_tls : bool;
    log : list event }.                       (* oldest event first *)

Definition set_excluded (ks : list DispatchKey) (w : world) : world :=
  {| tls_excluded := ks; mode_stack := mode_stack w; mode_heap := mode_heap w;
     dynamic_layer_stack := dynamic_layer_stack w;
     reapply_views_tls := reapply_views_tls w; log := log w |}.

Definition set_mode_stack (ms : list nat) (w : world) : world :=
  {| tls_excluded := tls_excluded w; mode_stack := ms; mode_heap := mode_heap w;
     dynamic_layer_stack := dynamic_layer_stack w;
     reapply_views_tls := reapply_views_tls w; log := log w |}.

Definition set_mode_heap (h : list mode_obj) (w : world) : world :=
  {| tls_excluded := tls_excluded w; mode_stack := mode_stack w; mode_heap := h;
     dynamic_layer_stack := dynamic_layer_stack w;
     reapply_views_tls := reapply_views_tls w; log := log w |}.

Definition set_dynamic_layer_stack (ls : list interpreter) (w : world) : world :=
  {| tls_excluded := tls_excluded w; mode_stack := mode_stack w;
     mode_heap := mode_heap w; dynamic_layer_stack := ls;
     reapply_views_tls := reapply_views_tls w; log := log w |}.

Definition add_event (e : event) (w : world) : world :=
  {| tls_excluded := tls_excluded w; mode_stack := mode_stack w;
     mode_heap := mode_heap w; dynamic_layer_stack := dynamic_layer_stack w;
     reapply_views_tls := reapply_views_tls w; log := log w ++ [e] |}.

(* ================================================================= *)
(** ** Computations: state and exceptions *)

Inductive exn : Type :=
| ValueError (msg : string)
| AssertionError (msg : string)
| TypeError (msg : string)
| AttributeError (msg : string)
| RuntimeError (msg : string)
| NotImplementedError (msg : string)
| OutOfFuel.          (* only the fuel of the model of the dispatcher *)

Inductive result (A : Type) : Type :=
| Ok (a : A)
| Raise (e : exn).
Arguments Ok {A} a.
Arguments Raise {A} e.

Definition M (A : Type) : Type := world -> result A * world.

Definition ret {A} (a : A) : M A := fun w => (Ok a, w).

Definition raise {A} (e : exn) : M A := fun w => (Raise e, w).

Definition bind {A B} (m : M A) (k : A -> M B) : M B :=
  fun w =>
    match m w with
    | (Ok a, w') => k a w'
    | (Raise e, w') => (Raise e, w')
    end.

Declare Scope monad_scope.
Delimit Scope monad_scope with monad.
Notation "x <- m ;; k" := (bind m (fun x => k))
  (at level 61, m at next level, right associativity) : monad_scope.
Notation "m ;; k" := (bind m (fun _ => k))
  (at level 61, right associativity) : monad_scope.
Local Open Scope monad_scope.

(** [assert cond, msg]. *)
Definition assert_ (cond : bool) (msg : string) : M unit :=
  if cond then ret tt else raise (AssertionError msg).

(** [try: body finally: cleanup]: the cleanup runs on both exits; an
    exception of the body is raised again after it. *)
Definition try_finally {A} (body : M A) (cleanup : M unit) : M A :=
  fun w =>
    match body w with
    | (Ok a, w') =>
        match cleanup w' with
        | (Ok _, w'') => (Ok a, w'')
        | (Raise e, w'') => (Raise e, w'')
        end
    | (Raise e, w') =>
        match cleanup w' with
        | (Ok _, w'') => (Raise e, w'')
        | (Raise e', w'') => (Raise e', w'')
        end
    end.


(* ================================================================= *)
(** ** Host-framework primitives the handlers call *)

(** Modelled from the spec: [torch._C.ExcludeDispatchKeyGuard] is missing; it
    is a guard object with "strict scoped acquire/release discipline": made,
    it excludes the given keys; destroyed, it lifts the exclusions it added
    (keys that were excluded already stay excluded). *)
Record guard : Type := { newly_excluded : list DispatchKey }.

Definition ExcludeDispatchKeyGuard (ks : list DispatchKey) : M guard :=
  fun w =>
    let fresh := filter (fun k => negb (key_in k (tls_excluded w))) ks in
    (Ok {| newly_excluded := fresh |}, set_excluded (fresh ++ tls_excluded w) w).

(** The destructor of the guard: what [del guard] runs, and what runs when
    the last reference to the guard goes away. *)
Definition del_guard (g : guard) : M unit :=
  fun w =>
    (Ok tt,
     set_excluded
       (filter (fun k => negb (key_in k (newly_excluded g))) (tls_excluded w)) w).

(** [torch._C._functionalization_reapply_views_tls()]. *)
Definition _functionalization_reapply_views_tls : M bool :=
  fun w => (Ok (reapply_views_tls w), w).

(** Modelled from the spec: [_unwrap_all_tensors_from_functional] is missing;
    it "unwraps every functionalized tensor wrapper in the argument ... to its
    underlying real tensor".  One layer of wrapping is removed; anything that
    is not a functionalized tensor is left alone.  [reapply_views] only
    selects how pending view updates are replayed. *)
Definition _maybe_unwrap_functional_tensor (reapply_views : bool) (l : leaf) : leaf :=
  match l with
  | LTensor (FunctionalTensorWrapper _ _ v) => LTensor v
  | _ => l
  end.

Definition _unwrap_all_tensors_from_functional (arg : pytree) (reapply_views : bool)
  : pytree :=
  tree_map (_maybe_unwrap_functional_tensor reapply_views) arg.

(** Modelled from the spec: [_wrap_all_tensors_to_functional] is missing; it
    "re-wraps the result as a functionalized tensor" at the level it is
    given. *)
Definition _maybe_wrap_functional_tensor (level : Z) (l : leaf) : leaf :=
  match l with
  | LTensor t => LTensor (FunctionalTensorWrapper level (requires_grad t) t)
  | _ => l
  end.

Definition _wrap_all_tensors_to_functional (res : pytree) (level : Z) : pytree :=
  tree_map (_maybe_wrap_functional_tensor level) res.

(** Modelled from the spec: [interpreter.lower()] is missing; it enters "the
    interpreter's lowered context": the current interpreter is taken off the
    interpreter stack for the body and put back on every exit. *)
Definition with_lower {A} (body : M A) : M A :=
  fun w =>
    match dynamic_layer_stack w with
    | [] => (Raise (RuntimeError "empty interpreter stack"), w)
    | saved :: rest =>
        let (r, w') := body (set_dynamic_layer_stack rest w) in
        (r, set_dynamic_layer_stack (saved :: dynamic_layer_stack w') w')
    end.

(** [_get_current_dispatch_mode()]: the mode on top of the stack, or None. *)
Definition _get_current_dispatch_mode : M (option nat) :=
  fun w => (Ok (hd_error (mode_stack w)), w).

(** Modelled from the spec: [_pop_mode_temporarily] is missing; the handler
    "retrieves and temporarily detaches that mode": the current mode is popped
    for the body, which receives it, and pushed back on every exit. *)
Definition with_pop_mode_temporarily {A} (body : nat -> M A) : M A :=
  fun w =>
    match mode_stack w with
    | [] => (Raise (RuntimeError "empty mode stack"), w)
    | old :: rest =>
        let (r, w') := body old (set_mode_stack rest w) in
        (r, set_mode_stack (old :: mode_stack w') w')
    end.

Fixpoint heap_update (id : nat) (f : mode_obj -> mode_obj) (h : list mode_obj)
  {struct h} : list mode_obj :=
  match h, id with
  | [], _ => []
  | m :: h', O => f m :: h'
  | m :: h', S id' => m :: heap_update id' f h'
  end.

(** [mode.enable_tracing]. *)
Definition get_enable_tracing (mode : nat) : M bool :=
  fun w =>
    match nth_error (mode_heap w) mode with
    | Some (ProxyTorchDispatchMode en _) => (Ok en, w)
    | _ => (Raise (AttributeError "enable_tracing"), w)
    end.

Definition set_enable_tracing (b : bool) (m : mode_obj) : mode_obj :=
  match m with
  | ProxyTorchDispatchMode _ tr => ProxyTorchDispatchMode b tr
  | _ => m
  end.

Definition enable_tracing_of (h : list mode_obj) (id : nat) : bool :=
  match nth_error h id with
  | Some (ProxyTorchDispatchMode en _) => en
  | _ => false
  end.

(** Modelled from the spec: [disable_proxy_modes_tracing] is missing; it
    "disables capture recursion": tracing is switched off on every proxy mode
    that is on the mode stack, and the old flags are put back on every
    exit. *)
Definition with_disable_proxy_modes_tracing {A} (body : M A) : M A :=
  fun w =>
    let modes := mode_stack w in
    let olds := map (fun id => (id, enable_tracing_of (mode_heap w) id)) modes in
    let off := fold_right (fun id h => heap_update id (set_enable_tracing false) h)
                          (mode_heap w) modes in
    let (r, w') := body (set_mode_heap off w) in
    (r, set_mode_heap
          (fold_right (fun o h => heap_update (fst o) (set_enable_tracing (snd o)) h)
                      (mode_heap w') olds) w').

(** [proxy_mode.tracer]. *)
Definition get_tracer (mode : nat) : M tracer :=
  fun w =>
    match nth_error (mode_heap w) mode with
    | Some (ProxyTorchDispatchMode _ tr) => (Ok tr, w)
    | _ => (Raise (AttributeError "tracer"), w)
    end.

Definition set_tracer (tr : tracer) (m : mode_obj) : mode_obj :=
  match m with
  | ProxyTorchDispatchMode en _ => ProxyTorchDispatchMode en tr
  | _ => m
  end.

(** Modelled from the spec: [tracer.create_proxy] is missing; it "builds a
    proxy-graph node ... tagged with a fixed node name": the node is appended
    to the tracer's graph and a proxy for it is returned. *)
Definition create_proxy (mode : nat) (kind : string) (target : HigherOrderOperator)
    (args : list pytree) (kwargs : list (string * pytree)) (name : string)
  : M proxy :=
  tr <- get_tracer mode ;;
  fun w =>
    let n := {| n_kind := kind; n_target := target; n_args := args;
                n_kwargs := kwargs; n_name := name |} in
    let tr' := {| graph := graph tr ++ [n]; tracked := tracked tr |} in
    (Ok {| proxy_node := List.length (graph tr) |},
     set_mode_heap (heap_update mode (set_tracer tr') (mode_heap w)) w).

(** Modelled from the spec: [track_tensor_tree] is missing; it "associates
    the concrete result with that graph node" and hands the result back. *)
Definition track_tensor_tree (out : pytree) (out_proxy : proxy) (mode : nat)
  : M pytree :=
  tr <- get_tracer mode ;;
  fun w =>
    let tr' := {| graph := graph tr; tracked := tracked tr ++ [(out, out_proxy)] |} in
    (Ok out, set_mode_heap (heap_update mode (set_tracer tr') (mode_heap w)) w).

(* ================================================================= *)
(** ** The operator and its handlers *)

(** [mixed_dtype = HigherOrderOperator("mixed_dtype")], followed by the five
    [mixed_dtype.fallthrough(...)] calls. *)
Definition mixed_dtype_op : HigherOrderOperator :=
  fallthrough AutocastCPU
    (fallthrough BackendSelect
       (fallthrough ADInplaceOrView
          (fallthrough PythonTLSSnapshot
             (fallthrough PythonDispatcher
                (new_HigherOrderOperator "mixed_dtype"))))).

Section Operator.

(** The kernels of the wrapped operations are not part of this file:
    [kernel op args] is what running [op] on [args] gives. *)
Variable kernel : op_ref -> list pytree -> result pytree.

(** [unwrap_proxy(proxy_mode, e)] is not part of this file: given the
    tracer of the proxy mode, what a leaf is replaced with in the arguments
    of a graph node. *)
Variable unwrap_proxy : tracer -> leaf -> leaf.

(** [op( *args )]. *)
Definition call (op : op_ref) (args : list pytree) : M pytree :=
  match op_kind_of op with
  | NotCallable => raise (TypeError "object is not callable")
  | _ => fun w => (kernel op args, add_event (EvCall op args) w)
  end.

(** [pytree.tree_map_only(torch.Tensor, lambda arg: arg.to(dtype=out_dtype),
    args)], on the tuple [args]. *)
Definition cast_tensors (out_dtype : dtype) (args : list pytree)
  : M (list pytree) :=
  fun w =>
    (Ok (star (tree_map_only_Tensor (to out_dtype) (PTuple args))),
     add_event (EvCast out_dtype args) w).

Section Handlers.

(** The operator itself, as the handlers call it back:
    [mixed_dtype(op, out_dtype, *args)]. *)
Variable dispatch : op_ref -> dtype -> list pytree -> M pytree.

Definition trace_mixed_dtype (proxy_mode : nat)
    (func_overload : HigherOrderOperator)
    (op : op_ref) (out_dtype : dtype) (args : list pytree) : M pytree :=
  if negb (isinstance_OpOverload op) then
    raise (ValueError "mixed_dtype's first argument must be an OpOverload")
  else
    out <- with_disable_proxy_modes_tracing
             (casted_args <- cast_tensors out_dtype args ;;
              call op casted_args) ;;
    let node_args := Leaf (LOp op) :: Leaf (LDtype out_dtype) :: args in
    tr <- get_tracer proxy_mode ;;
    let proxy_args := star (tree_map (unwrap_proxy tr) (PTuple node_args)) in
    out_proxy <- create_proxy proxy_mode "call_function" func_overload
                              proxy_args [] "mixed_dtype" ;;
    track_tensor_tree out out_proxy proxy_mode.

Definition mixed_dtype_dense (op : op_ref) (out_dtype : dtype)
    (args : list pytree) : M pytree :=
  casted_args <- cast_tensors out_dtype args ;;
  res <- call op casted_args ;;
  ret res.

(** The guard is held by the local [_]: it lives until the call returns,
    and is destroyed then.  When the nested call raises, the frame, and
    the guard with it, is kept by the traceback, so that path records no
    release. *)
Definition mixed_dtype_autograd (op : op_ref) (out_dtype : dtype)
    (args : list pytree) : M pytree :=
  let flat_operands := tree_flatten (PTuple args) in
  assert_ (forallb (fun b => b)
             (flat_map (fun f => match f with
                                 | LTensor t => [negb (requires_grad t)]
                                 | _ => []
                                 end) flat_operands)) "" ;;
  g <- ExcludeDispatchKeyGuard [AutogradCPU] ;;
  res <- dispatch op out_dtype args ;;
  del_guard g ;;
  ret res.

Definition mixed_dtype_proxy (op : op_ref) (out_dtype : dtype)
    (args : list pytree) : M pytree :=
  mode <- _get_current_dispatch_mode ;;
  assert_ (match mode with Some _ => true | None => false end)
          "Mode should always be enabled for python fallback key" ;;
  with_pop_mode_temporarily (fun mode =>
    enable_tracing <- get_enable_tracing mode ;;
    if enable_tracing : bool then
      trace_mixed_dtype mode mixed_dtype_op op out_dtype args
    else
      dispatch op out_dtype args).

Definition mixed_dtype_fake_tensor_mode (op : op_ref) (out_dtype : dtype)
    (args : list pytree) : M pytree :=
  mixed_dtype_dense op out_dtype args.

(** The handler registered for [DispatchKey.Functionalize]. *)
Definition mixed_dtype_func (op : op_ref) (out_dtype : dtype)
    (args : list pytree) : M pytree :=
  reapply_views <- _functionalization_reapply_views_tls ;;
  let unwrapped_args :=
    map (fun arg => _unwrap_all_tensors_from_functional arg reapply_views) args in
  g <- ExcludeDispatchKeyGuard [Functionalize] ;;
  try_finally
    (res <- dispatch op out_dtype unwrapped_args ;;
     ret (_wrap_all_tensors_to_functional res 0))
    (del_guard g).

(** The handler registered for [TransformType.Functionalize]; the source
    gives it the same name as the previous one. *)
Definition mixed_dtype_func' (interp : interpreter) (op : op_ref)
    (out_dtype : dtype) (args : list pytree) : M pytree :=
  let reapply_views := i_functionalize_add_back_views interp in
  let unwrapped_args :=
    map (fun arg => _unwrap_all_tensors_from_functional arg reapply_views) args in
  with_lower
    (res <- dispatch op out_dtype unwrapped_args ;;
     ret (_wrap_all_tensors_to_functional res (i_level interp))).

End Handlers.

(** The handler the host dispatcher hands a call to; each stands for an
    entry made with [py_impl]. *)
Inductive handler : Type :=
| H_Functorch (interp : interpreter)   (* TransformType.Functionalize *)
| H_Autograd                           (* DispatchKey.Autograd *)
| H_Functionalize                      (* DispatchKey.Functionalize *)
| H_Mode (mode : nat)                  (* ProxyTorchDispatchMode, FakeTensorMode *)
| H_Dense.                             (* DispatchKey.CompositeExplicitAutograd *)

Definition is_functional_leaf (l : leaf) : bool :=
  match l with
  | LTensor (FunctionalTensorWrapper _ _ _) => true
  | _ => false
  end.

(** Modelled from the spec: the host dispatcher is missing.  "Control flows
    from whichever entry point the host framework selects (based on
    currently active mode stack) into exactly one handler"; keys that are
    excluded or marked fall-through are not considered.  From the highest
    priority down: the functorch interpreter stack, autograd (every tensor
    carries the key), functionalization (a functionalized tensor carries
    the key), the current dispatch mode, and last the dense kernel. *)
Definition select (o : HigherOrderOperator) (w : world) (args : list pytree)
  : handler :=
  let live k :=
    negb (key_in k (tls_excluded w)) && negb (key_in k (ho_fallthrough o)) in
  let flat := tree_flatten (PTuple args) in
  match live FuncTorchDynamicLayerFrontMode, dynamic_layer_stack w with
  | true, interp :: _ => H_Functorch interp
  | _, _ =>
      if live AutogradCPU && existsb isinstance_Tensor flat then H_Autograd
      else if live Functionalize && existsb is_functional_leaf flat
           then H_Functionalize
      else match live Python, mode_stack w with
           | true, mode :: _ => H_Mode mode
           | _, _ => H_Dense
           end
  end.

(** Modelled from the spec: calling the operator,
    [mixed_dtype(op, out_dtype, *args)].  The selected handler runs; the
    handlers registered with [py_impl] above are the whole table.  [fuel]
    bounds the depth of re-entry. *)
Fixpoint mixed_dtype (fuel : nat) (op : op_ref) (out_dtype : dtype)
    (args : list pytree) : M pytree :=
  match fuel with
  | O => raise OutOfFuel
  | S fuel' =>
      fun w =>
        match select mixed_dtype_op w args with
        | H_Functorch interp =>
            match i_key interp with
            | TT_Functionalize =>
                mixed_dtype_func' (mixed_dtype fuel') interp op out_dtype args w
            | _ => (Raise (NotImplementedError "no rule for this transform"), w)
            end
        | H_Autograd => mixed_dtype_autograd (mixed_dtype fuel') op out_dtype args w
        | H_Functionalize => mixed_dtype_func (mixed_dtype fuel') op out_dtype args w
        | H_Mode mode =>
            match nth_error (mode_heap w) mode with
            | Some (ProxyTorchDispatchMode _ _) =>
                mixed_dtype_proxy (mixed_dtype fuel') op out_dtype args w
            | Some FakeTensorMode =>
                mixed_dtype_fake_tensor_mode op out_dtype args w
            | _ => (Raise (AssertionError "mode not registered"), w)
            end
        | H_Dense => mixed_dtype_dense op out_dtype args w
        end
  end.

End Operator.

(* ================================================================= *)
(** ** Vocabulary of the statements *)

(** The world in which a guard on [ks] has been made. *)
Definition guarded (ks : list DispatchKey) (w : world) : world :=
  snd (ExcludeDispatchKeyGuard ks w).

(** The guard made in world [w] for the keys [ks]. *)
Definition guard_of (ks : list DispatchKey) (w : world) : guard :=
  {| newly_excluded := filter (fun k => negb (key_in k (tls_excluded w))) ks |}.

(** The world in which guard [g] has been destroyed. *)
Definition released (g : guard) (w : world) : world := snd (del_guard g w).

(** The world inside [interpreter.lower()]. *)
Definition lowered (w : world) : world :=
  set_dynamic_layer_stack (tl (dynamic_layer_stack w)) w.

(** Some tensor leaf of the arguments requires gradient tracking. *)
Definition any_requires_grad (args : list pytree) : bool :=
  existsb requires_grad (tensors_of (PTuple args)).



(** The nesting levels of the functionalized tensors of a structure; a
    tensor that is not functionalized has none. *)
Definition level_of (t : tensor) : option Z :=
  match t with
  | Dense _ _ _ => None
  | FunctionalTensorWrapper l _ _ => Some l
  end.

Definition levels_of (t : pytree) : list (option Z) :=
  map level_of (tensors_of t).

(** The worlds of the supported execution modes: every mode on the stack is
    a proxy mode or a fake-tensor mode, every interpreter on the interpreter
    stack is a functionalization interpreter. *)
Definition supported_mode (h : list mode_obj) (id : nat) : bool :=
  match nth_error h id with
  | Some (ProxyTorchDispatchMode _ _) => true
  | Some FakeTensorMode => true
  | _ => false
  end.

Definition supported_interpreter (i : interpreter) : bool :=
  match i_key i with TT_Functionalize => true | _ => false end.

Definition supported_world (w : world) : bool :=
  forallb (supported_mode (mode_heap w)) (mode_stack w)
  && forallb supported_interpreter (dynamic_layer_stack w).

(** A bound on the depth of re-entry of the operator from world [w]. *)
Definition depth (w : world) : nat :=
  (List.length (dynamic_layer_stack w) + List.length (mode_stack w)
   + (if key_in AutogradCPU (tls_excluded w) then 0 else 1)
   + (if key_in Functionalize (tls_excluded w) then 0 else 1))%nat.


(* ================================================================= *)
(** ** Sample inputs *)

(** A table of kernels: [aten.neg.default] hands back its first argument's
    structure (a result of the dtype of its input), [aten.isfinite.default]
    answers with a boolean tensor, anything else fails. *)
Definition sample_kernel (op : op_ref) (args : list pytree) : result pytree :=
  if String.eqb (op_name op) "aten.neg.default" then
    Ok (hd (Leaf LNone) args)
  else if String.eqb (op_name op) "aten.isfinite.default" then
    Ok (Leaf (LTensor (Dense bool_dtype false (Buffer 7))))
  else Raise (RuntimeError "kernel failed").

(** Nothing is tracked yet: every leaf stands for itself. *)
Definition sample_unwrap_proxy (tr : tracer) (l : leaf) : leaf := l.

Definition aten_neg : op_ref :=
  {| op_kind_of := OpOverload; op_name := "aten.neg.default" |}.

Definition aten_isfinite : op_ref :=
  {| op_kind_of := OpOverload; op_name := "aten.isfinite.default" |}.

Definition aten_neg_packet : op_ref :=
  {| op_kind_of := OpOverloadPacket; op_name := "aten.neg.default" |}.

Definition x_int8 : tensor := Dense int8 false (Buffer 1).

Definition x_grad : tensor := Dense float32 true (Buffer 2).

(** Eager execution: no mode, no interpreter, nothing excluded. *)
Definition eager_world : world :=
  {| tls_excluded := []; mode_stack := []; mode_heap := [];
     dynamic_layer_stack := []; reapply_views_tls := false; log := [] |}.

(** Graph capture: one proxy mode with capture enabled and an empty graph. *)
Definition tracing_world : world :=
  {| tls_excluded := []; mode_stack := [0%nat];
     mode_heap := [ProxyTorchDispatchMode true {| graph := []; tracked := [] |}];
     dynamic_layer_stack := []; reapply_views_tls := false; log := [] |}.

(** Functionalization through a functorch interpreter at level 1. *)
Definition functorch_world : world :=
  {| tls_excluded := []; mode_stack := []; mode_heap := [];
     dynamic_layer_stack :=
       [{| i_key := TT_Functionalize; i_level := 1;
           i_functionalize_add_back_views := false |}];
     reapply_views_tls := false; log := [] |}.

(** A nested invocation that fails. *)
Definition failing_dispatch (op : op_ref) (d : dtype) (args : list pytree)
  : M pytree :=
  raise (RuntimeError "nested invocation failed").

(* ================================================================= *)
(** ** Vocabulary of the further statements *)

(** The arguments the handlers hand to the wrapped operation. *)
Definition casted (out_dtype : dtype) (args : list pytree) : list pytree :=
  map (tree_map_only_Tensor (to out_dtype)) args.

(** The world after the arguments have been cast and the operation called. *)
Definition after_call (op : op_ref) (out_dtype : dtype) (args : list pytree)
    (w : world) : world :=
  add_event (EvCall op (casted out_dtype args)) (add_event (EvCast out_dtype args) w).

(** The node [trace_mixed_dtype] asks the tracer [tr] to record. *)
Definition recorded_node (unwrap_proxy : tracer -> leaf -> leaf) (tr : tracer)
    (op : op_ref) (out_dtype : dtype) (args : list pytree) : node :=
  {| n_kind := "call_function";
     n_target := mixed_dtype_op;
     n_args := map (tree_map (unwrap_proxy tr))
                   (Leaf (LOp op) :: Leaf (LDtype out_dtype) :: args);
     n_kwargs := [];
     n_name := "mixed_dtype" |}.

(** The tracer [tr] after one traced call that returned [out]. *)
Definition after_trace (unwrap_proxy : tracer -> leaf -> leaf) (tr : tracer)
    (op : op_ref) (out_dtype : dtype) (args : list pytree) (out : pytree)
  : tracer :=
  {| graph := graph tr ++ [recorded_node unwrap_proxy tr op out_dtype args];
     tracked := tracked tr ++ [(out, {| proxy_node := List.length (graph tr) |})] |}.

(** A computation that, on every exit, leaves the excluded keys, the mode
    stack and the interpreter stack as it found them. *)
Definition keeps_ambient {A} (m : M A) : Prop :=
  forall w,
    tls_excluded (snd (m w)) = tls_excluded w
    /\ mode_stack (snd (m w)) = mode_stack w
    /\ dynamic_layer_stack (snd (m w)) = dynamic_layer_stack w.

(** No leaf of the arguments is a functionalized tensor. *)
Definition no_functional_leaf (args : list pytree) : bool :=
  negb (existsb is_functional_leaf (tree_flatten (PTuple args))).

(** An operation whose kernel fails. *)
Definition aten_fails : op_ref :=
  {| op_kind_of := OpOverload; op_name := "aten.fails.default" |}.

(** Graph capture nested in graph capture: two proxy modes, the current one
    with an empty graph, the outer one with capture enabled as well. *)
Definition nested_tracing_world : world :=
  {| tls_excluded := []; mode_stack := [0%nat; 1%nat];
     mode_heap := [ProxyTorchDispatchMode true {| graph := []; tracked := [] |};
                   ProxyTorchDispatchMode true {| graph := []; tracked := [] |}];
     dynamic_layer_stack := []; reapply_views_tls := false; log := [] |}.

(** A proxy mode whose capture is switched off. *)
Definition paused_tracing_world : world :=
  {| tls_excluded := []; mode_stack := [0%nat];
     mode_heap := [ProxyTorchDispatchMode false {| graph := []; tracked := [] |}];
     dynamic_layer_stack := []; reapply_views_tls := false; log := [] |}.

(* ================================================================= *)
(** ** Facts about argument structures *)

Lemma dtype_eqb_refl (d : dtype) : dtype_eqb d d = true.
Proof. unfold dtype_eqb. destruct (dtype_eq_dec d d); congruence. Qed.

Lemma dtype_eqb_eq (a b : dtype) : dtype_eqb a b = true <-> a = b.
Proof.
  unfold dtype_eqb. destruct (dtype_eq_dec a b); split; congruence.
Qed.

Lemma tensor_dtype_to (d : dtype) (t : tensor) : tensor_dtype (to d t) = d.
Proof.
  induction t as [dt rg s | l rg v IH]; simpl; auto.
  destruct (dtype_eqb dt d) eqn:E; simpl; auto.
  now apply dtype_eqb_eq.
Qed.

Lemma tree_flatten_tree_map (fn : leaf -> leaf) (t : pytree) :
  tree_flatten (tree_map fn t) = map fn (tree_flatten t).
Proof.
  induction t as [l | xs IH | xs IH | kvs IH] using pytree_ind'; simpl; auto.
  - induction IH as [| x xs Hx _ IHxs]; simpl; auto.
    now rewrite map_app, Hx, IHxs.
  - induction IH as [| x xs Hx _ IHxs]; simpl; auto.
    now rewrite map_app, Hx, IHxs.
  - induction IH as [| kv kvs Hx _ IHxs]; simpl; auto.
    now rewrite map_app, Hx, IHxs.
Qed.

Lemma tensors_of_tree_map_only (fn : tensor -> tensor) (t : pytree) :
  tensors_of (tree_map_only_Tensor fn t) = map fn (tensors_of t).
Proof.
  unfold tensors_of, tree_map_only_Tensor.
  rewrite tree_flatten_tree_map.
  induction (tree_flatten t) as [| l ls IH]; simpl; auto.
  rewrite map_app, IH. now destruct l.
Qed.

Lemma shape_of_tree_map_only (fn : tensor -> tensor) (t : pytree) :
  shape_of (tree_map_only_Tensor fn t) = shape_of t.
Proof.
  unfold tree_map_only_Tensor.
  induction t as [l | xs IH | xs IH | kvs IH] using pytree_ind'; simpl.
  - now destruct l.
  - f_equal. induction IH as [| x xs Hx _ IHxs]; simpl; congruence.
  - f_equal. induction IH as [| x xs Hx _ IHxs]; simpl; congruence.
  - f_equal. induction IH as [| kv kvs Hx _ IHxs]; simpl; congruence.
Qed.

Lemma tree_map_only_no_tensor (fn : tensor -> tensor) (t : pytree) :
  tensors_of t = [] -> tree_map_only_Tensor fn t = t.
Proof.
  unfold tree_map_only_Tensor, tensors_of.
  induction t as [l | xs IH | xs IH | kvs IH] using pytree_ind'; simpl.
  - destruct l; simpl; auto; discriminate.
  - intros H. f_equal. induction IH as [| x xs Hx _ IHxs]; simpl in *; auto.
    rewrite flat_map_app in H. apply app_eq_nil in H as [H1 H2].
    now rewrite Hx, IHxs.
  - intros H. f_equal. induction IH as [| x xs Hx _ IHxs]; simpl in *; auto.
    rewrite flat_map_app in H. apply app_eq_nil in H as [H1 H2].
    now rewrite Hx, IHxs.
  - intros H. f_equal. induction IH as [| [k x] kvs Hx _ IHxs]; simpl in *; auto.
    rewrite flat_map_app in H. apply app_eq_nil in H as [H1 H2].
    now rewrite Hx, IHxs.
Qed.

Lemma all_tensors_dtype_cast (d : dtype) (t : pytree) :
  all_tensors_dtype d (tree_map_only_Tensor (to d) t) = true.
Proof.
  unfold all_tensors_dtype. rewrite tensors_of_tree_map_only.
  apply forallb_forall. intros x Hx. apply in_map_iff in Hx as [y [<- _]].
  rewrite tensor_dtype_to. apply dtype_eqb_refl.
Qed.

Lemma nth_error_map_only_non_tensor (fn : tensor -> tensor) (ls : list leaf)
    (j : nat) (l : leaf) :
  nth_error ls j = Some l -> isinstance_Tensor l = false ->
  nth_error (map (map_only_Tensor fn) ls) j = Some l.
Proof.
  intros H Hl. rewrite nth_error_map, H. simpl. now destruct l.
Qed.

(* ================================================================= *)
(** ** The dense handler *)

Lemma mixed_dtype_dense_eq
    (kernel : op_ref -> list pytree -> result pytree)
    (op : op_ref) (out_dtype : dtype) (args : list pytree) (w : world) :
  mixed_dtype_dense kernel op out_dtype args w
  = call kernel op (map (tree_map_only_Tensor (to out_dtype)) args)
         (add_event (EvCast out_dtype args) w).
Proof.
  unfold mixed_dtype_dense, cast_tensors, bind, ret. simpl.
  destruct (call kernel op _ _) as [[r | e] w']; reflexivity.
Qed.

(** C1.  For every argument tuple the dense handler casts every tensor leaf
    to [out_dtype] (the tensors handed to the operation are the casts of the
    tensors of the arguments, in order, and all have dtype [out_dtype]),
    keeps the container structure and the other leaves, calls [op] on the
    casted arguments, and returns what that call returns, unchanged. *)
Theorem mixed_dtype_dense_casts_calls_returns
    (kernel : op_ref -> list pytree -> result pytree)
    (op : op_ref) (out_dtype : dtype) (args : list pytree) (w : world) :
  let casted_args := map (tree_map_only_Tensor (to out_dtype)) args in
  tensors_of (PTuple casted_args) = map (to out_dtype) (tensors_of (PTuple args))
  /\ all_tensors_dtype out_dtype (PTuple casted_args) = true
  /\ shape_of (PTuple casted_args) = shape_of (PTuple args)
  /\ mixed_dtype_dense kernel op out_dtype args w
     = call kernel op casted_args (add_event (EvCast out_dtype args) w)
  /\ fst (mixed_dtype_dense kernel op out_dtype args w)
     = match op_kind_of op with
       | NotCallable => Raise (TypeError "object is not callable")
       | _ => kernel op casted_args
       end.
Proof.
  intros casted_args. subst casted_args.
  change (PTuple (map (tree_map_only_Tensor (to out_dtype)) args))
    with (tree_map_only_Tensor (to out_dtype) (PTuple args)).
  repeat split.
  - apply tensors_of_tree_map_only.
  - apply all_tensors_dtype_cast.
  - apply shape_of_tree_map_only.
  - apply mixed_dtype_dense_eq.
  - unfold mixed_dtype_dense, cast_tensors, bind, ret, call, raise. simpl.
    destruct (op_kind_of op); try reflexivity;
      destruct (kernel op _); reflexivity.
Qed.

(** C10.  In the dense handler whatever is not a tensor reaches the wrapped
    operation unchanged: the arguments of the call have the leaves of the
    original arguments at the same positions wherever the leaf is not a
    tensor, and an element without any tensor in it is passed as it is. *)
Theorem mixed_dtype_dense_frame
    (kernel : op_ref -> list pytree -> result pytree)
    (op : op_ref) (out_dtype : dtype) (args : list pytree) (w : world) :
  exists casted_args,
    mixed_dtype_dense kernel op out_dtype args w
    = call kernel op casted_args (add_event (EvCast out_dtype args) w)
    /\ List.length casted_args = List.length args
    /\ (forall j l, nth_error (tree_flatten (PTuple args)) j = Some l ->
                    isinstance_Tensor l = false ->
                    nth_error (tree_flatten (PTuple casted_args)) j = Some l)
    /\ (forall i a, nth_error args i = Some a -> tensors_of a = [] ->
                    nth_error casted_args i = Some a).
Proof.
  exists (map (tree_map_only_Tensor (to out_dtype)) args). repeat split.
  - apply mixed_dtype_dense_eq.
  - apply length_map.
  - intros j l Hj Hl.
    change (PTuple (map (tree_map_only_Tensor (to out_dtype)) args))
      with (tree_map (map_only_Tensor (to out_dtype)) (PTuple args)).
    rewrite tree_flatten_tree_map.
    now apply nth_error_map_only_non_tensor.
  - intros i a Hi Ha. rewrite nth_error_map, Hi. simpl.
    now rewrite tree_map_only_no_tensor.
Qed.

(* ================================================================= *)
(** ** The fake-tensor handler *)

(** C5.  The shape-inference handler is extensionally equal to the dense
    handler: on every operation, precision, argument tuple and world the two
    give the same outcome and the same final world. *)
Theorem mixed_dtype_fake_tensor_mode_is_dense
    (kernel : op_ref -> list pytree -> result pytree)
    (op : op_ref) (out_dtype : dtype) (args : list pytree) (w : world) :
  mixed_dtype_fake_tensor_mode kernel op out_dtype args w
  = mixed_dtype_dense kernel op out_dtype args w.
Proof. reflexivity. Qed.

(* ================================================================= *)
(** ** Guards *)

Lemma key_in_true (k : DispatchKey) (ks : list DispatchKey) :
  key_in k ks = true <-> In k ks.
Proof. unfold key_in. destruct (in_dec DispatchKey_eq_dec k ks); split; congruence. Qed.

Lemma key_in_false (k : DispatchKey) (ks : list DispatchKey) :
  key_in k ks = false <-> ~ In k ks.
Proof. unfold key_in. destruct (in_dec DispatchKey_eq_dec k ks); split; congruence. Qed.

Lemma filter_none {A} (f : A -> bool) (l : list A) :
  (forall x, In x l -> f x = false) -> filter f l = [].
Proof.
  induction l as [| y l IH]; intros H; simpl; auto.
  rewrite (H y (or_introl eq_refl)). apply IH. intros x Hx. apply H. now right.
Qed.

Lemma filter_all {A} (f : A -> bool) (l : list A) :
  (forall x, In x l -> f x = true) -> filter f l = l.
Proof.
  induction l as [| y l IH]; intros H; simpl; auto.
  rewrite (H y (or_introl eq_refl)). f_equal. apply IH. intros x Hx. apply H. now right.
Qed.

(** A guard destroyed in a world with the exclusions it was left with puts
    back the exclusions it found. *)
Lemma guard_release_restores (ks ex : list DispatchKey) :
  let fresh := filter (fun k => negb (key_in k ex)) ks in
  filter (fun k => negb (key_in k fresh)) (fresh ++ ex) = ex.
Proof.
  intros fresh. rewrite filter_app, filter_none, filter_all; auto.
  - intros k Hk. apply negb_true_iff, key_in_false. intros Hin.
    apply filter_In in Hin as [_ Hin].
    apply negb_true_iff, key_in_false in Hin. contradiction.
  - intros k Hk. apply negb_false_iff. now apply key_in_true.
Qed.

(** Whatever happened in between, a key the guard added is not excluded any
    more once the guard is destroyed. *)
Lemma guard_release_lifts (ks ex ex' : list DispatchKey) (k : DispatchKey) :
  In k ks -> key_in k ex = false ->
  key_in k (filter (fun k' => negb (key_in k'
                (filter (fun k0 => negb (key_in k0 ex)) ks))) ex') = false.
Proof.
  intros Hk Hex. apply key_in_false. intros Hin.
  apply filter_In in Hin as [_ Hin].
  apply negb_true_iff, key_in_false in Hin. apply Hin.
  apply filter_In. split; auto. now rewrite Hex.
Qed.

Lemma guarded_excludes (k : DispatchKey) (w : world) :
  key_in k (tls_excluded (guarded [k] w)) = true.
Proof.
  unfold guarded, ExcludeDispatchKeyGuard. simpl.
  destruct (key_in k (tls_excluded w)) eqn:E; simpl; auto.
  unfold key_in. destruct (in_dec _ _ _) as [|n]; auto. exfalso. apply n. now left.
Qed.

(* ================================================================= *)
(** ** The autograd handler *)

Lemma autograd_assert_cond (args : list pytree) :
  forallb (fun b => b)
    (flat_map (fun f => match f with
                        | LTensor t => [negb (requires_grad t)]
                        | _ => []
                        end) (tree_flatten (PTuple args)))
  = negb (any_requires_grad args).
Proof.
  unfold any_requires_grad, tensors_of.
  induction (tree_flatten (PTuple args)) as [| l ls IH]; auto.
  destruct l; simpl; auto.
  rewrite IH. now destruct (requires_grad t).
Qed.

Lemma mixed_dtype_autograd_eq
    (dispatch : op_ref -> dtype -> list pytree -> M pytree)
    (op : op_ref) (out_dtype : dtype) (args : list pytree) (w : world) :
  mixed_dtype_autograd dispatch op out_dtype args w
  = if any_requires_grad args then (Raise (AssertionError ""), w)
    else match dispatch op out_dtype args (guarded [AutogradCPU] w) with
         | (Ok res, w2) => (Ok res, released (guard_of [AutogradCPU] w) w2)
         | (Raise e, w2) => (Raise e, w2)
         end.
Proof.
  unfold mixed_dtype_autograd. rewrite autograd_assert_cond.
  destruct (any_requires_grad args); reflexivity.
Qed.

(** C3.  With a tensor leaf that requires gradient tracking among the
    arguments the autograd handler fails with an assertion error, whatever
    the operator would do: nothing is called and the world is as it was.
    Without such a leaf the assertion passes and the handler goes on to
    exclude the key and call the operator again. *)
Theorem mixed_dtype_autograd_guards_requires_grad
    (dispatch : op_ref -> dtype -> list pytree -> M pytree)
    (op : op_ref) (out_dtype : dtype) (args : list pytree) (w : world) :
  mixed_dtype_autograd dispatch op out_dtype args w
  = if existsb requires_grad (tensors_of (PTuple args))
    then (Raise (AssertionError ""), w)
    else match dispatch op out_dtype args (guarded [AutogradCPU] w) with
         | (Ok res, w2) => (Ok res, released (guard_of [AutogradCPU] w) w2)
         | (Raise e, w2) => (Raise e, w2)
         end.
Proof. apply mixed_dtype_autograd_eq. Qed.

(** The returning exit of the autograd handler.  When no tensor leaf requires
    gradient tracking, the operator is called again in a world where the
    autograd key is excluded, so that the dispatcher does not pick the
    autograd handler for that call.  When that call returns, the handler
    returns its result and the exclusion is lifted: an autograd key that was
    not excluded on entry is not excluded on exit, and if the nested call
    left the exclusions as it found them, the exclusions on exit are exactly
    those on entry. *)
Theorem mixed_dtype_autograd_excludes_temporarily
    (dispatch : op_ref -> dtype -> list pytree -> M pytree)
    (op : op_ref) (out_dtype : dtype) (args : list pytree)
    (w w2 : world) (res : pytree) :
  any_requires_grad args = false ->
  dispatch op out_dtype args (guarded [AutogradCPU] w) = (Ok res, w2) ->
  key_in AutogradCPU (tls_excluded (guarded [AutogradCPU] w)) = true
  /\ select mixed_dtype_op (guarded [AutogradCPU] w) args <> H_Autograd
  /\ exists w',
       mixed_dtype_autograd dispatch op out_dtype args w = (Ok res, w')
       /\ (key_in AutogradCPU (tls_excluded w) = false ->
           key_in AutogradCPU (tls_excluded w') = false)
       /\ (tls_excluded w2 = tls_excluded (guarded [AutogradCPU] w) ->
           tls_excluded w' = tls_excluded w).
Proof.
  intros Hgrad Hcall.
  pose proof (guarded_excludes AutogradCPU w) as Hex.
  split; [exact Hex |]. split.
  - unfold select. rewrite Hex. simpl.
    repeat match goal with
           | |- context [match ?x with _ => _ end] => destruct x
           end; discriminate.
  - rewrite mixed_dtype_autograd_eq, Hgrad, Hcall.
    eexists. split; [reflexivity |]. split.
    + intros Hfree. apply (guard_release_lifts [AutogradCPU]); simpl; auto.
    + intros Hbal. unfold released, del_guard, guard_of. simpl. rewrite Hbal.
      exact (guard_release_restores [AutogradCPU] (tls_excluded w)).
Qed.

(* ================================================================= *)
(** ** The functionalization handlers *)

Lemma tree_map_id (fn : leaf -> leaf) (t : pytree) :
  (forall l, fn l = l) -> tree_map fn t = t.
Proof.
  intros Hfn.
  induction t as [l | xs IH | xs IH | kvs IH] using pytree_ind'; simpl.
  - now rewrite Hfn.
  - f_equal. induction IH as [| x xs Hx _ IHxs]; simpl; congruence.
  - f_equal. induction IH as [| x xs Hx _ IHxs]; simpl; congruence.
  - f_equal. induction IH as [| [k x] kvs Hx _ IHxs]; simpl in *; congruence.
Qed.

Lemma tree_map_tree_map (f g : leaf -> leaf) (t : pytree) :
  tree_map f (tree_map g t) = tree_map (fun l => f (g l)) t.
Proof.
  induction t as [l | xs IH | xs IH | kvs IH] using pytree_ind'; simpl; auto.
  - f_equal. induction IH as [| x xs Hx _ IHxs]; simpl; congruence.
  - f_equal. induction IH as [| x xs Hx _ IHxs]; simpl; congruence.
  - f_equal. induction IH as [| [k x] kvs Hx _ IHxs]; simpl in *; congruence.
Qed.

Lemma unwrap_wrap (res : pytree) (level : Z) (reapply_views : bool) :
  _unwrap_all_tensors_from_functional
    (_wrap_all_tensors_to_functional res level) reapply_views = res.
Proof.
  unfold _unwrap_all_tensors_from_functional, _wrap_all_tensors_to_functional.
  rewrite tree_map_tree_map. apply tree_map_id. now intros [].
Qed.

Lemma tensors_of_wrap (res : pytree) (level : Z) :
  tensors_of (_wrap_all_tensors_to_functional res level)
  = map (fun t => FunctionalTensorWrapper level (requires_grad t) t) (tensors_of res).
Proof.
  unfold tensors_of, _wrap_all_tensors_to_functional.
  rewrite tree_flatten_tree_map.
  induction (tree_flatten res) as [| l ls IH]; simpl; auto.
  rewrite map_app, IH. now destruct l.
Qed.

Lemma levels_of_wrap (res : pytree) (level : Z) :
  levels_of (_wrap_all_tensors_to_functional res level)
  = map (fun _ => Some level) (tensors_of res).
Proof.
  unfold levels_of. rewrite tensors_of_wrap, map_map. reflexivity.
Qed.


Lemma mixed_dtype_func_eq
    (dispatch : op_ref -> dtype -> list pytree -> M pytree)
    (op : op_ref) (out_dtype : dtype) (args : list pytree) (w : world) :
  mixed_dtype_func dispatch op out_dtype args w
  = let unwrapped_args :=
      map (fun arg => _unwrap_all_tensors_from_functional arg (reapply_views_tls w))
          args in
    match dispatch op out_dtype unwrapped_args (guarded [Functionalize] w) with
    | (Ok res, w2) =>
        (Ok (_wrap_all_tensors_to_functional res 0),
         released (guard_of [Functionalize] w) w2)
    | (Raise e, w2) => (Raise e, released (guard_of [Functionalize] w) w2)
    end.
Proof.
  unfold mixed_dtype_func, try_finally, bind, ret, guarded, released, guard_of.
  simpl. destruct (dispatch op out_dtype _ _) as [[res | e] w2]; reflexivity.
Qed.

Lemma mixed_dtype_func'_eq
    (dispatch : op_ref -> dtype -> list pytree -> M pytree)
    (interp : interpreter)
    (op : op_ref) (out_dtype : dtype) (args : list pytree) (w : world) :
  mixed_dtype_func' dispatch interp op out_dtype args w
  = let unwrapped_args :=
      map (fun arg => _unwrap_all_tensors_from_functional arg
                        (i_functionalize_add_back_views interp)) args in
    match dynamic_layer_stack w with
    | [] => (Raise (RuntimeError "empty interpreter stack"), w)
    | saved :: _ =>
        match dispatch op out_dtype unwrapped_args (lowered w) with
        | (Ok res, w2) =>
            (Ok (_wrap_all_tensors_to_functional res (i_level interp)),
             set_dynamic_layer_stack (saved :: dynamic_layer_stack w2) w2)
        | (Raise e, w2) =>
            (Raise e, set_dynamic_layer_stack (saved :: dynamic_layer_stack w2) w2)
        end
    end.
Proof.
  unfold mixed_dtype_func', with_lower, bind, ret, lowered. simpl.
  destruct (dynamic_layer_stack w) as [| saved rest]; auto. simpl.
  destruct (dispatch op out_dtype _ _) as [[res | e] w2]; reflexivity.
Qed.

(** C6, as the code has it.  Each functionalization handler removes one
    layer of functionalized wrapper from every tensor of the arguments, calls
    the operator on the unwrapped arguments, and wraps every tensor of what
    that call returns: at level 0 in the handler registered for the dispatch
    key, at the interpreter's level in the handler registered for the
    transform, whatever the levels of the wrappers of the arguments were.
    Unwrapping the returned structure gives back the result of the nested
    call. *)
Theorem functionalize_handlers_unwrap_call_wrap
    (dispatch : op_ref -> dtype -> list pytree -> M pytree)
    (interp : interpreter)
    (op : op_ref) (out_dtype : dtype) (args : list pytree) (w : world) :
  (mixed_dtype_func dispatch op out_dtype args w
   = match dispatch op out_dtype
             (map (fun arg => _unwrap_all_tensors_from_functional arg
                                (reapply_views_tls w)) args)
             (guarded [Functionalize] w) with
     | (Ok res, w2) =>
         (Ok (_wrap_all_tensors_to_functional res 0),
          released (guard_of [Functionalize] w) w2)
     | (Raise e, w2) => (Raise e, released (guard_of [Functionalize] w) w2)
     end)
  /\ (mixed_dtype_func' dispatch interp op out_dtype args w
      = match dynamic_layer_stack w with
        | [] => (Raise (RuntimeError "empty interpreter stack"), w)
        | saved :: _ =>
            match dispatch op out_dtype
                    (map (fun arg => _unwrap_all_tensors_from_functional arg
                                       (i_functionalize_add_back_views interp)) args)
                    (lowered w) with
            | (Ok res, w2) =>
                (Ok (_wrap_all_tensors_to_functional res (i_level interp)),
                 set_dynamic_layer_stack (saved :: dynamic_layer_stack w2) w2)
            | (Raise e, w2) =>
                (Raise e, set_dynamic_layer_stack (saved :: dynamic_layer_stack w2) w2)
            end
        end)
  /\ (forall res level reapply_views,
         _unwrap_all_tensors_from_functional
           (_wrap_all_tensors_to_functional res level) reapply_views = res
         /\ levels_of (_wrap_all_tensors_to_functional res level)
            = map (fun _ => Some level) (tensors_of res)).
Proof.
  split; [apply mixed_dtype_func_eq |].
  split; [apply mixed_dtype_func'_eq |].
  intros res level rv. split; [apply unwrap_wrap | apply levels_of_wrap].
Qed.

(** C7.  Both functionalization handlers give back what they acquired on
    every exit, also when the nested call of the operator raises.  In the
    handler for the dispatch key, a functionalization key that the guard
    added is no longer excluded on exit, whatever the nested call did; and
    when the nested call left the exclusions as it found them, the exclusions
    on exit are those on entry.  In the handler for the transform, the
    interpreter that was taken off the stack is back on top on exit.  An
    exception of the nested call is raised again after that. *)
Theorem functionalize_handlers_release_on_every_exit
    (dispatch : op_ref -> dtype -> list pytree -> M pytree)
    (interp : interpreter)
    (op : op_ref) (out_dtype : dtype) (args : list pytree) (w : world) :
  let nested :=
    dispatch op out_dtype
      (map (fun arg => _unwrap_all_tensors_from_functional arg
                         (reapply_views_tls w)) args)
      (guarded [Functionalize] w) in
  let nested' :=
    dispatch op out_dtype
      (map (fun arg => _unwrap_all_tensors_from_functional arg
                         (i_functionalize_add_back_views interp)) args)
      (lowered w) in
  let exit := mixed_dtype_func dispatch op out_dtype args w in
  let exit' := mixed_dtype_func' dispatch interp op out_dtype args w in
  (key_in Functionalize (tls_excluded w) = false ->
   key_in Functionalize (tls_excluded (snd exit)) = false)
  /\ (tls_excluded (snd nested) = tls_excluded (guarded [Functionalize] w) ->
      tls_excluded (snd exit) = tls_excluded w)
  /\ (forall saved rest, dynamic_layer_stack w = saved :: rest ->
      dynamic_layer_stack (snd exit')
      = saved :: dynamic_layer_stack (snd nested'))
  /\ (forall e, fst nested = Raise e -> fst exit = Raise e)
  /\ (forall e saved rest, dynamic_layer_stack w = saved :: rest ->
      fst nested' = Raise e -> fst exit' = Raise e).
Proof.
  intros nested nested' exit exit'. subst exit exit'.
  rewrite mixed_dtype_func_eq, mixed_dtype_func'_eq. cbv zeta.
  fold nested nested'.
  repeat split.
  - intros Hfree. destruct nested as [[res | e] w2]; simpl;
      apply (guard_release_lifts [Functionalize]); simpl; auto.
  - intros Hbal. destruct nested as [[res | e] w2]; simpl in *;
      rewrite Hbal; exact (guard_release_restores [Functionalize] (tls_excluded w)).
  - intros saved rest Hw. rewrite Hw.
    destruct nested' as [[res | e] w2]; reflexivity.
  - intros e He. destruct nested as [[res | e0] w2]; simpl in *; congruence.
  - intros e saved rest Hw He. rewrite Hw.
    destruct nested' as [[res | e0] w2]; simpl in *; congruence.
Qed.

(* ================================================================= *)
(** ** The heap of mode objects *)

Lemma nth_error_heap_update (id i : nat) (f : mode_obj -> mode_obj)
    (h : list mode_obj) :
  nth_error (heap_update id f h) i
  = if Nat.eqb i id then option_map f (nth_error h i) else nth_error h i.
Proof.
  revert id i. induction h as [| m h IH]; intros id i; simpl.
  - destruct (Nat.eqb i id); destruct i; reflexivity.
  - destruct id as [| id]; destruct i as [| i]; simpl; auto.
Qed.

Lemma nth_error_heap_update_same (id : nat) (f : mode_obj -> mode_obj)
    (h : list mode_obj) (m : mode_obj) :
  nth_error h id = Some m -> nth_error (heap_update id f h) id = Some (f m).
Proof.
  intros H. now rewrite nth_error_heap_update, Nat.eqb_refl, H.
Qed.

Lemma set_enable_tracing_twice (a b : bool) (m : mode_obj) :
  set_enable_tracing a (set_enable_tracing b m) = set_enable_tracing a m.
Proof. now destruct m. Qed.

Lemma nth_error_tracing_off (h : list mode_obj) (modes : list nat) (i : nat) :
  nth_error (fold_right (fun id h' => heap_update id (set_enable_tracing false) h')
                        h modes) i
  = if existsb (Nat.eqb i) modes
    then option_map (set_enable_tracing false) (nth_error h i)
    else nth_error h i.
Proof.
  induction modes as [| m ms IH]; simpl; auto.
  rewrite nth_error_heap_update, IH.
  destruct (Nat.eqb i m); simpl; auto.
  destruct (existsb (Nat.eqb i) ms); auto.
  destruct (nth_error h i); simpl; auto.
  now rewrite set_enable_tracing_twice.
Qed.

Lemma nth_error_tracing_restored (h0 h1 : list mode_obj) (modes : list nat)
    (i : nat) :
  nth_error
    (fold_right (fun o h' => heap_update (fst o) (set_enable_tracing (snd o)) h')
                h1 (map (fun id => (id, enable_tracing_of h0 id)) modes)) i
  = if existsb (Nat.eqb i) modes
    then option_map (set_enable_tracing (enable_tracing_of h0 i)) (nth_error h1 i)
    else nth_error h1 i.
Proof.
  induction modes as [| m ms IH]; simpl; auto.
  rewrite nth_error_heap_update, IH.
  destruct (Nat.eqb i m) eqn:E; simpl; auto.
  apply Nat.eqb_eq in E. subst m.
  destruct (existsb (Nat.eqb i) ms); auto.
  destruct (nth_error h1 i); simpl; auto.
  now rewrite set_enable_tracing_twice.
Qed.

(** Switching tracing off on the modes of the stack and putting the old
    flags back gives the heap one started from. *)
Lemma tracing_off_then_restored (h : list mode_obj) (modes : list nat) :
  fold_right (fun o h' => heap_update (fst o) (set_enable_tracing (snd o)) h')
    (fold_right (fun id h' => heap_update id (set_enable_tracing false) h') h modes)
    (map (fun id => (id, enable_tracing_of h id)) modes)
  = h.
Proof.
  apply nth_error_ext. intros i.
  rewrite nth_error_tracing_restored, nth_error_tracing_off.
  destruct (existsb (Nat.eqb i) modes); auto.
  unfold enable_tracing_of.
  destruct (nth_error h i) as [[en tr | | name] |]; reflexivity.
Qed.

(* ================================================================= *)
(** ** The trace handler *)

Lemma traced_call_eq
    (kernel : op_ref -> list pytree -> result pytree)
    (op : op_ref) (out_dtype : dtype) (args : list pytree) (w : world) :
  with_disable_proxy_modes_tracing
    (bind (cast_tensors out_dtype args) (fun casted_args => call kernel op casted_args)) w
  = call kernel op (map (tree_map_only_Tensor (to out_dtype)) args)
         (add_event (EvCast out_dtype args) w).
Proof.
  unfold with_disable_proxy_modes_tracing, bind, cast_tensors, call, raise.
  simpl. destruct w as [ex ms h ls rv lg]. simpl.
  destruct (op_kind_of op); simpl;
    unfold set_mode_heap, add_event; simpl;
    rewrite tracing_off_then_restored; reflexivity.
Qed.

Lemma pop_push_same (w : world) (mode : nat) (rest : list nat) :
  mode_stack w = mode :: rest ->
  set_mode_stack (mode :: mode_stack (set_mode_stack rest w)) (set_mode_stack rest w)
  = w.
Proof. destruct w; simpl; intros ->; reflexivity. Qed.

Lemma trace_mixed_dtype_rejects
    (kernel : op_ref -> list pytree -> result pytree)
    (unwrap_proxy : tracer -> leaf -> leaf)
    (proxy_mode : nat) (func_overload : HigherOrderOperator)
    (op : op_ref) (out_dtype : dtype) (args : list pytree) (w : world) :
  isinstance_OpOverload op = false ->
  trace_mixed_dtype kernel unwrap_proxy proxy_mode func_overload op out_dtype args w
  = (Raise (ValueError "mixed_dtype's first argument must be an OpOverload"), w).
Proof. intros H. unfold trace_mixed_dtype. now rewrite H. Qed.

Lemma mixed_dtype_proxy_tracing
    (kernel : op_ref -> list pytree -> result pytree)
    (unwrap_proxy : tracer -> leaf -> leaf)
    (dispatch : op_ref -> dtype -> list pytree -> M pytree)
    (op : op_ref) (out_dtype : dtype) (args : list pytree) (w : world)
    (mode : nat) (rest : list nat) (tr : tracer) :
  mode_stack w = mode :: rest ->
  nth_error (mode_heap w) mode = Some (ProxyTorchDispatchMode true tr) ->
  mixed_dtype_proxy kernel unwrap_proxy dispatch op out_dtype args w
  = let (r, w') := trace_mixed_dtype kernel unwrap_proxy mode mixed_dtype_op
                     op out_dtype args (set_mode_stack rest w) in
    (r, set_mode_stack (mode :: mode_stack w') w').
Proof.
  intros Hstack Hheap.
  unfold mixed_dtype_proxy, bind, _get_current_dispatch_mode,
    with_pop_mode_temporarily, get_enable_tracing.
  rewrite Hstack. simpl. rewrite Hstack, Hheap. reflexivity.
Qed.

(** C2, as the code has it.  When the call reaches the trace handler with
    capture enabled and the wrapped operation is not an [OpOverload], the
    handler fails with a value error before anything is cast, called or
    recorded: the world on exit is the world on entry.  (The check is made in
    [trace_mixed_dtype] only.) *)
Theorem trace_handler_rejects_non_OpOverload
    (kernel : op_ref -> list pytree -> result pytree)
    (unwrap_proxy : tracer -> leaf -> leaf)
    (dispatch : op_ref -> dtype -> list pytree -> M pytree)
    (op : op_ref) (out_dtype : dtype) (args : list pytree) (w : world)
    (mode : nat) (rest : list nat) (tr : tracer) :
  isinstance_OpOverload op = false ->
  mode_stack w = mode :: rest ->
  nth_error (mode_heap w) mode = Some (ProxyTorchDispatchMode true tr) ->
  trace_mixed_dtype kernel unwrap_proxy mode mixed_dtype_op op out_dtype args w
  = (Raise (ValueError "mixed_dtype's first argument must be an OpOverload"), w)
  /\ mixed_dtype_proxy kernel unwrap_proxy dispatch op out_dtype args w
     = (Raise (ValueError "mixed_dtype's first argument must be an OpOverload"), w).
Proof.
  intros Hop Hstack Hheap. split.
  - now apply trace_mixed_dtype_rejects.
  - rewrite (mixed_dtype_proxy_tracing _ _ _ _ _ _ _ _ _ _ Hstack Hheap).
    rewrite trace_mixed_dtype_rejects by assumption.
    now rewrite (pop_push_same _ _ _ Hstack).
Qed.

Lemma bind_run {A B} (m : M A) (k : A -> M B) (w w' : world) (a : A) :
  m w = (Ok a, w') -> bind m k w = k a w'.
Proof. intros H. unfold bind. now rewrite H. Qed.

Lemma isinstance_OpOverload_kind (op : op_ref) :
  isinstance_OpOverload op = true -> op_kind_of op = OpOverload.
Proof. unfold isinstance_OpOverload. now destruct (op_kind_of op). Qed.

Lemma trace_mixed_dtype_records
    (kernel : op_ref -> list pytree -> result pytree)
    (unwrap_proxy : tracer -> leaf -> leaf)
    (mode : nat) (func_overload : HigherOrderOperator)
    (op : op_ref) (out_dtype : dtype) (args : list pytree) (w : world)
    (en : bool) (tr : tracer) (out : pytree) :
  isinstance_OpOverload op = true ->
  nth_error (mode_heap w) mode = Some (ProxyTorchDispatchMode en tr) ->
  kernel op (map (tree_map_only_Tensor (to out_dtype)) args) = Ok out ->
  let casted_args := map (tree_map_only_Tensor (to out_dtype)) args in
  let n := {| n_kind := "call_function"; n_target := func_overload;
              n_args := map (tree_map (unwrap_proxy tr))
                            (Leaf (LOp op) :: Leaf (LDtype out_dtype) :: args);
              n_kwargs := []; n_name := "mixed_dtype" |} in
  let tr' := {| graph := graph tr ++ [n];
                tracked := tracked tr
                           ++ [(out, {| proxy_node := List.length (graph tr) |})] |} in
  exists w',
    trace_mixed_dtype kernel unwrap_proxy mode func_overload op out_dtype args w
    = (Ok out, w')
    /\ nth_error (mode_heap w') mode = Some (ProxyTorchDispatchMode en tr')
    /\ mode_stack w' = mode_stack w
    /\ tls_excluded w' = tls_excluded w
    /\ dynamic_layer_stack w' = dynamic_layer_stack w
    /\ log w' = log w ++ [EvCast out_dtype args; EvCall op casted_args].
Proof.
  intros Hop Hheap Hk casted_args n tr'.
  set (w1 := add_event (EvCall op casted_args) (add_event (EvCast out_dtype args) w)).
  set (tr1 := {| graph := graph tr ++ [n]; tracked := tracked tr |}).
  set (w2 := set_mode_heap (heap_update mode (set_tracer tr1) (mode_heap w1)) w1).
  set (w3 := set_mode_heap (heap_update mode (set_tracer tr') (mode_heap w2)) w2).
  assert (H1 : with_disable_proxy_modes_tracing
                 (bind (cast_tensors out_dtype args)
                       (fun casted_args => call kernel op casted_args)) w
               = (Ok out, w1)).
  { rewrite traced_call_eq. unfold call.
    rewrite (isinstance_OpOverload_kind _ Hop). fold casted_args.
    unfold casted_args at 1. now rewrite Hk. }
  assert (H2 : get_tracer mode w1 = (Ok tr, w1)).
  { unfold get_tracer. simpl. now rewrite Hheap. }
  assert (Hheap2 : nth_error (mode_heap w2) mode
                   = Some (ProxyTorchDispatchMode en tr1)).
  { simpl. now rewrite (nth_error_heap_update_same _ _ _ _ Hheap). }
  assert (H3 : create_proxy mode "call_function" func_overload
                 (star (tree_map (unwrap_proxy tr)
                          (PTuple (Leaf (LOp op) :: Leaf (LDtype out_dtype) :: args))))
                 [] "mixed_dtype" w1
               = (Ok {| proxy_node := List.length (graph tr) |}, w2)).
  { unfold create_proxy. now rewrite (bind_run _ _ _ _ _ H2). }
  assert (H4 : track_tensor_tree out {| proxy_node := List.length (graph tr) |} mode w2
               = (Ok out, w3)).
  { unfold track_tensor_tree, bind, get_tracer. now rewrite Hheap2. }
  exists w3. split; [| split].
  - unfold trace_mixed_dtype. rewrite Hop. cbn [negb].
    rewrite (bind_run _ _ _ _ _ H1), (bind_run _ _ _ _ _ H2),
      (bind_run _ _ _ _ _ H3).
    exact H4.
  - simpl. now rewrite (nth_error_heap_update_same _ _ _ _ Hheap2).
  - repeat split. simpl. now rewrite <- app_assoc.
Qed.


(** C4.  Under a proxy mode with capture enabled, for an [OpOverload] whose
    call on the casted arguments returns [out]: the handler returns [out],
    and the graph of the mode's tracer has gained one node named
    ["mixed_dtype"], a [call_function] of the operator itself, whose
    arguments are made from the operation reference, the precision and the
    original, uncasted arguments (each leaf as [unwrap_proxy] presents it);
    [out] is associated with the proxy of that node; the mode is back on the
    stack. *)
Theorem mixed_dtype_proxy_records_original_args
    (kernel : op_ref -> list pytree -> result pytree)
    (unwrap_proxy : tracer -> leaf -> leaf)
    (dispatch : op_ref -> dtype -> list pytree -> M pytree)
    (op : op_ref) (out_dtype : dtype) (args : list pytree) (w : world)
    (mode : nat) (rest : list nat) (tr : tracer) (out : pytree) :
  mode_stack w = mode :: rest ->
  nth_error (mode_heap w) mode = Some (ProxyTorchDispatchMode true tr) ->
  isinstance_OpOverload op = true ->
  kernel op (map (tree_map_only_Tensor (to out_dtype)) args) = Ok out ->
  exists w',
    mixed_dtype_proxy kernel unwrap_proxy dispatch op out_dtype args w = (Ok out, w')
    /\ nth_error (mode_heap w') mode
       = Some (ProxyTorchDispatchMode true
                 {| graph :=
                      graph tr
                      ++ [{| n_kind := "call_function";
                             n_target := mixed_dtype_op;
                             n_args :=
                               map (tree_map (unwrap_proxy tr))
                                   (Leaf (LOp op) :: Leaf (LDtype out_dtype) :: args);
                             n_kwargs := [];
                             n_name := "mixed_dtype" |}];
                    tracked :=
                      tracked tr
                      ++ [(out, {| proxy_node := List.length (graph tr) |})] |})
    /\ mode_stack w' = mode_stack w
    /\ log w' = log w ++ [EvCast out_dtype args;
                          EvCall op (map (tree_map_only_Tensor (to out_dtype)) args)].
Proof.
  intros Hstack Hheap Hop Hk.
  rewrite (mixed_dtype_proxy_tracing _ _ _ _ _ _ _ _ _ _ Hstack Hheap).
  destruct (trace_mixed_dtype_records kernel unwrap_proxy mode mixed_dtype_op
              op out_dtype args (set_mode_stack rest w) true tr out Hop Hheap Hk)
    as (w1 & Hrun & Hnode & Hms & _ & _ & Hlog).
  rewrite Hrun. eexists. split; [reflexivity |]. simpl.
  repeat split; auto.
  now rewrite Hms, Hstack.
Qed.

(* ================================================================= *)
(** ** The operator, over the modelled dispatcher *)

Lemma key_in_cons (k k' : DispatchKey) (ks : list DispatchKey) :
  key_in k (k' :: ks) = if DispatchKey_eq_dec k' k then true else key_in k ks.
Proof.
  unfold key_in. simpl.
  destruct (DispatchKey_eq_dec k' k) as [E | E];
    destruct (in_dec DispatchKey_eq_dec k ks) as [I | I]; auto.
Qed.

Lemma tls_excluded_guarded_fresh (k : DispatchKey) (w : world) :
  key_in k (tls_excluded w) = false ->
  tls_excluded (guarded [k] w) = k :: tls_excluded w.
Proof.
  intros H. unfold guarded, ExcludeDispatchKeyGuard. simpl. now rewrite H.
Qed.





Lemma mixed_dtype_proxy_not_tracing
    (kernel : op_ref -> list pytree -> result pytree)
    (unwrap_proxy : tracer -> leaf -> leaf)
    (dispatch : op_ref -> dtype -> list pytree -> M pytree)
    (op : op_ref) (out_dtype : dtype) (args : list pytree) (w : world)
    (mode : nat) (rest : list nat) (tr : tracer) :
  mode_stack w = mode :: rest ->
  nth_error (mode_heap w) mode = Some (ProxyTorchDispatchMode false tr) ->
  mixed_dtype_proxy kernel unwrap_proxy dispatch op out_dtype args w
  = let (r, w') := dispatch op out_dtype args (set_mode_stack rest w) in
    (r, set_mode_stack (mode :: mode_stack w') w').
Proof.
  intros Hstack Hheap.
  unfold mixed_dtype_proxy, bind, _get_current_dispatch_mode,
    with_pop_mode_temporarily, get_enable_tracing.
  rewrite Hstack. simpl. rewrite Hstack, Hheap. reflexivity.
Qed.



(* ================================================================= *)
(** ** The statements on sample inputs *)

(** The dense handler on a nested structure: the operation is called with
    the two tensors cast, and with the integer, the string and the containers
    as they were. *)
Lemma mixed_dtype_dense_sample :
  log (snd (mixed_dtype_dense sample_kernel aten_neg int32
              [PList [Leaf (LTensor x_int8); Leaf (LStr "mode")];
               Leaf (LInt 3); Leaf (LTensor x_grad)] eager_world))
  = [EvCast int32 [PList [Leaf (LTensor x_int8); Leaf (LStr "mode")];
                   Leaf (LInt 3); Leaf (LTensor x_grad)];
     EvCall aten_neg
       [PList [Leaf (LTensor (Dense int32 false (Converted int8 int32 (Buffer 1))));
               Leaf (LStr "mode")];
        Leaf (LInt 3);
        Leaf (LTensor (Dense int32 true (Converted float32 int32 (Buffer 2))))]].
Proof. reflexivity. Qed.

(** The autograd handler on a tensor that requires gradient tracking. *)
Lemma mixed_dtype_autograd_sample :
  mixed_dtype_autograd (mixed_dtype sample_kernel sample_unwrap_proxy 3)
    aten_neg float32 [Leaf (LInt 3); PTuple [Leaf (LTensor x_grad)]] eager_world
  = (Raise (AssertionError ""), eager_world).
Proof. reflexivity. Qed.

(** The dense handler does not look at the kind of the operation reference:
    an [OpOverloadPacket] is cast for and called. *)
Lemma dense_handler_calls_non_OpOverload :
  isinstance_OpOverload aten_neg_packet = false
  /\ mixed_dtype_dense sample_kernel aten_neg_packet float32
       [Leaf (LTensor x_int8)] eager_world
     = (Ok (Leaf (LTensor (Dense float32 false (Converted int8 float32 (Buffer 1))))),
        {| tls_excluded := []; mode_stack := []; mode_heap := [];
           dynamic_layer_stack := []; reapply_views_tls := false;
           log := [EvCast float32 [Leaf (LTensor x_int8)];
                   EvCall aten_neg_packet
                     [Leaf (LTensor (Dense float32 false
                                       (Converted int8 float32 (Buffer 1))))]] |})
  /\ fst (mixed_dtype sample_kernel sample_unwrap_proxy 2 aten_neg_packet float32
            [Leaf (LTensor x_int8)] eager_world)
     = Ok (Leaf (LTensor (Dense float32 false (Converted int8 float32 (Buffer 1))))).
Proof. repeat split. Qed.

Lemma trace_handler_rejects_non_OpOverload_witness :
  trace_mixed_dtype sample_kernel sample_unwrap_proxy 0%nat mixed_dtype_op
    aten_neg_packet float32 [Leaf (LTensor x_int8)] tracing_world
  = (Raise (ValueError "mixed_dtype's first argument must be an OpOverload"),
     tracing_world)
  /\ mixed_dtype_proxy sample_kernel sample_unwrap_proxy failing_dispatch
       aten_neg_packet float32 [Leaf (LTensor x_int8)] tracing_world
     = (Raise (ValueError "mixed_dtype's first argument must be an OpOverload"),
        tracing_world).
Proof.
  apply (trace_handler_rejects_non_OpOverload sample_kernel sample_unwrap_proxy
           failing_dispatch aten_neg_packet float32 [Leaf (LTensor x_int8)]
           tracing_world 0%nat [] {| graph := []; tracked := [] |});
    reflexivity.
Defined.

Lemma mixed_dtype_proxy_records_original_args_witness :
  exists w',
    mixed_dtype_proxy sample_kernel sample_unwrap_proxy failing_dispatch
      aten_neg float32 [Leaf (LTensor x_int8); Leaf (LInt 3)] tracing_world
    = (Ok (Leaf (LTensor (Dense float32 false (Converted int8 float32 (Buffer 1))))),
       w')
    /\ nth_error (mode_heap w') 0
       = Some (ProxyTorchDispatchMode true
                 {| graph :=
                      [{| n_kind := "call_function";
                          n_target := mixed_dtype_op;
                          n_args := [Leaf (LOp aten_neg); Leaf (LDtype float32);
                                     Leaf (LTensor x_int8); Leaf (LInt 3)];
                          n_kwargs := [];
                          n_name := "mixed_dtype" |}];
                    tracked :=
                      [(Leaf (LTensor (Dense float32 false
                                         (Converted int8 float32 (Buffer 1)))),
                        {| proxy_node := 0 |})] |})
    /\ mode_stack w' = [0%nat]
    /\ log w'
       = [EvCast float32 [Leaf (LTensor x_int8); Leaf (LInt 3)];
          EvCall aten_neg
            [Leaf (LTensor (Dense float32 false (Converted int8 float32 (Buffer 1))));
             Leaf (LInt 3)]].
Proof.
  apply (mixed_dtype_proxy_records_original_args sample_kernel sample_unwrap_proxy
           failing_dispatch aten_neg float32 [Leaf (LTensor x_int8); Leaf (LInt 3)]
           tracing_world 0%nat [] {| graph := []; tracked := [] |}
           (Leaf (LTensor (Dense float32 false (Converted int8 float32 (Buffer 1))))));
    reflexivity.
Defined.

(** With its inputs wrapped at level 3 the handler for the dispatch key
    answers with a tensor wrapped at level 0. *)
Lemma functionalize_key_handler_wraps_at_level_0 :
  let args := [Leaf (LTensor (FunctionalTensorWrapper 3 false x_int8))] in
  let r := Leaf (LTensor (FunctionalTensorWrapper 0 false
                 (Dense float32 false (Converted int8 float32 (Buffer 1))))) in
  levels_of (PTuple args) = [Some 3]
  /\ fst (mixed_dtype_func (mixed_dtype sample_kernel sample_unwrap_proxy 2)
            aten_neg float32 args eager_world) = Ok r
  /\ levels_of r = [Some 0].
Proof. repeat split. Qed.

Lemma functionalize_handlers_release_on_every_exit_witness :
  let args := [Leaf (LTensor (FunctionalTensorWrapper 1 false x_int8))] in
  let interp := {| i_key := TT_Functionalize; i_level := 1;
                   i_functionalize_add_back_views := false |} in
  (key_in Functionalize
     (tls_excluded (snd (mixed_dtype_func failing_dispatch aten_neg float32 args
                           eager_world))) = false
   /\ fst (mixed_dtype_func failing_dispatch aten_neg float32 args eager_world)
      = Raise (RuntimeError "nested invocation failed"))
  /\ (dynamic_layer_stack
        (snd (mixed_dtype_func' failing_dispatch interp aten_neg float32 args
                functorch_world)) = [interp]
      /\ fst (mixed_dtype_func' failing_dispatch interp aten_neg float32 args
                functorch_world)
         = Raise (RuntimeError "nested invocation failed")).
Proof.
  intros args interp. split.
  - destruct (functionalize_handlers_release_on_every_exit failing_dispatch interp
                aten_neg float32 args eager_world) as (H1 & _ & _ & H4 & _).
    split; [apply H1 | apply H4]; reflexivity.
  - destruct (functionalize_handlers_release_on_every_exit failing_dispatch interp
                aten_neg float32 args functorch_world) as (_ & _ & H3 & _ & H5).
    split; [apply (H3 interp []) | apply (H5 _ interp [])]; reflexivity.
Defined.

Lemma mixed_dtype_autograd_excludes_temporarily_witness :
  let out := Leaf (LTensor (Dense float32 false (Converted int8 float32 (Buffer 1)))) in
  key_in AutogradCPU (tls_excluded (guarded [AutogradCPU] eager_world)) = true
  /\ select mixed_dtype_op (guarded [AutogradCPU] eager_world) [Leaf (LTensor x_int8)]
     <> H_Autograd
  /\ exists w',
       mixed_dtype_autograd (mixed_dtype sample_kernel sample_unwrap_proxy 1)
         aten_neg float32 [Leaf (LTensor x_int8)] eager_world = (Ok out, w')
       /\ key_in AutogradCPU (tls_excluded w') = false
       /\ tls_excluded w' = tls_excluded eager_world.
Proof.
  intros out.
  destruct (mixed_dtype_autograd_excludes_temporarily
              (mixed_dtype sample_kernel sample_unwrap_proxy 1)
              aten_neg float32 [Leaf (LTensor x_int8)] eager_world
              (snd (mixed_dtype sample_kernel sample_unwrap_proxy 1
                      aten_neg float32 [Leaf (LTensor x_int8)]
                      (guarded [AutogradCPU] eager_world)))
              out eq_refl eq_refl)
    as (Hex & Hsel & w' & Hrun & Hfree & Hbal).
  split; [exact Hex |]. split; [exact Hsel |].
  exists w'. split; [exact Hrun |].
  split; [apply Hfree | apply Hbal]; reflexivity.
Defined.

(** C8.  The exclusion the autograd handler makes is not lifted when the
    operator it calls again raises.  On an argument without gradient
    tracking and an operation whose kernel fails, in eager mode with the
    autograd key free: the handler excludes the key for the nested call, the
    nested call raises, and the handler exits with that exception and the
    autograd key still excluded; so does the operator as a whole.  On the
    same failing call the functionalization handler, which releases its
    guard in a [finally], exits with no key excluded. *)
Lemma mixed_dtype_autograd_raise_keeps_key_excluded :
  let args := [Leaf (LTensor x_int8)] in
  let nested := mixed_dtype_dense sample_kernel in
  any_requires_grad args = false
  /\ key_in AutogradCPU (tls_excluded eager_world) = false
  /\ fst (nested aten_fails float32 args (guarded [AutogradCPU] eager_world))
     = Raise (RuntimeError "kernel failed")
  /\ mixed_dtype_autograd nested aten_fails float32 args eager_world
     = (Raise (RuntimeError "kernel failed"),
        {| tls_excluded := [AutogradCPU]; mode_stack := []; mode_heap := [];
           dynamic_layer_stack := []; reapply_views_tls := false;
           log := [EvCast float32 args;
                   EvCall aten_fails (casted float32 args)] |})
  /\ tls_excluded
       (snd (mixed_dtype sample_kernel sample_unwrap_proxy 3 aten_fails float32
               args eager_world))
     = [AutogradCPU]
  /\ tls_excluded (snd (mixed_dtype_func nested aten_fails float32 args eager_world))
     = [].
Proof. repeat split. Qed.



(* ================================================================= *)
(** ** What the handlers leave alone *)

Lemma keeps_ambient_ret {A} (a : A) : keeps_ambient (ret a).
Proof. intros w. simpl. auto. Qed.

Lemma keeps_ambient_raise {A} (e : exn) : keeps_ambient (@raise A e).
Proof. intros w. simpl. auto. Qed.

Lemma keeps_ambient_bind {A B} (m : M A) (k : A -> M B) :
  keeps_ambient m -> (forall a, keeps_ambient (k a)) -> keeps_ambient (bind m k).
Proof.
  intros Hm Hk w. unfold bind. specialize (Hm w).
  destruct (m w) as [[a | e] w1]; simpl in *; auto.
  destruct (Hk a w1) as (H1 & H2 & H3). destruct Hm as (G1 & G2 & G3).
  repeat split; congruence.
Qed.

Lemma keeps_ambient_call
    (kernel : op_ref -> list pytree -> result pytree)
    (op : op_ref) (args : list pytree) :
  keeps_ambient (call kernel op args).
Proof. intros w. unfold call. destruct (op_kind_of op); simpl; auto. Qed.

Lemma keeps_ambient_cast_tensors (d : dtype) (args : list pytree) :
  keeps_ambient (cast_tensors d args).
Proof. intros w. simpl. auto. Qed.

Lemma keeps_ambient_get_tracer (mode : nat) : keeps_ambient (get_tracer mode).
Proof.
  intros w. unfold get_tracer.
  destruct (nth_error (mode_heap w) mode) as [[en tr | | name] |]; simpl; auto.
Qed.

Lemma keeps_ambient_create_proxy (mode : nat) (kind : string)
    (target : HigherOrderOperator) (args : list pytree)
    (kwargs : list (string * pytree)) (name : string) :
  keeps_ambient (create_proxy mode kind target args kwargs name).
Proof.
  apply keeps_ambient_bind; [apply keeps_ambient_get_tracer |].
  intros tr w. simpl. auto.
Qed.

Lemma keeps_ambient_track_tensor_tree (out : pytree) (p : proxy) (mode : nat) :
  keeps_ambient (track_tensor_tree out p mode).
Proof.
  apply keeps_ambient_bind; [apply keeps_ambient_get_tracer |].
  intros tr w. simpl. auto.
Qed.

Lemma keeps_ambient_with_disable {A} (body : M A) :
  keeps_ambient body -> keeps_ambient (with_disable_proxy_modes_tracing body).
Proof.
  intros Hb w. unfold with_disable_proxy_modes_tracing.
  specialize (Hb (set_mode_heap
                    (fold_right (fun id h => heap_update id (set_enable_tracing false) h)
                                (mode_heap w) (mode_stack w)) w)).
  destruct (body _) as [r w1]. simpl in *. exact Hb.
Qed.

Lemma keeps_ambient_dense
    (kernel : op_ref -> list pytree -> result pytree)
    (op : op_ref) (d : dtype) (args : list pytree) :
  keeps_ambient (mixed_dtype_dense kernel op d args).
Proof.
  unfold mixed_dtype_dense.
  apply keeps_ambient_bind; [apply keeps_ambient_cast_tensors |]. intros c.
  apply keeps_ambient_bind; [apply keeps_ambient_call |]. intros r.
  apply keeps_ambient_ret.
Qed.

Lemma keeps_ambient_trace
    (kernel : op_ref -> list pytree -> result pytree)
    (unwrap_proxy : tracer -> leaf -> leaf)
    (mode : nat) (func_overload : HigherOrderOperator)
    (op : op_ref) (d : dtype) (args : list pytree) :
  keeps_ambient (trace_mixed_dtype kernel unwrap_proxy mode func_overload op d args).
Proof.
  unfold trace_mixed_dtype.
  destruct (negb (isinstance_OpOverload op)); [apply keeps_ambient_raise |].
  apply keeps_ambient_bind.
  { apply keeps_ambient_with_disable.
    apply keeps_ambient_bind; [apply keeps_ambient_cast_tensors |]. intros c.
    apply keeps_ambient_call. }
  intros out.
  apply keeps_ambient_bind; [apply keeps_ambient_get_tracer |]. intros tr.
  apply keeps_ambient_bind; [apply keeps_ambient_create_proxy |]. intros p.
  apply keeps_ambient_track_tensor_tree.
Qed.

(** X1.  The dense handler and [trace_mixed_dtype] never change the excluded
    dispatch keys, the mode stack or the interpreter stack: on every exit,
    with a result or with an exception, for every operation reference and
    every content of the mode heap, the three are as on entry. *)
Theorem dense_and_trace_keep_ambient
    (kernel : op_ref -> list pytree -> result pytree)
    (unwrap_proxy : tracer -> leaf -> leaf)
    (mode : nat) (func_overload : HigherOrderOperator)
    (op : op_ref) (out_dtype : dtype) (args : list pytree) :
  keeps_ambient (mixed_dtype_dense kernel op out_dtype args)
  /\ keeps_ambient (trace_mixed_dtype kernel unwrap_proxy mode func_overload
                      op out_dtype args).
Proof. split; [apply keeps_ambient_dense | apply keeps_ambient_trace]. Qed.

(** X2.  The proxy handler puts the mode it popped back on every exit: if the
    operator it may call again leaves the excluded keys, the mode stack and
    the interpreter stack as it finds them, so does the handler, whether
    capture is enabled or not, and whether it returns or raises. *)
Theorem mixed_dtype_proxy_keeps_ambient
    (kernel : op_ref -> list pytree -> result pytree)
    (unwrap_proxy : tracer -> leaf -> leaf)
    (dispatch : op_ref -> dtype -> list pytree -> M pytree)
    (op : op_ref) (out_dtype : dtype) (args : list pytree) :
  keeps_ambient (dispatch op out_dtype args) ->
  keeps_ambient (mixed_dtype_proxy kernel unwrap_proxy dispatch op out_dtype args).
Proof.
  intros Hd w.
  unfold mixed_dtype_proxy, bind, _get_current_dispatch_mode,
    with_pop_mode_temporarily, assert_.
  destruct (mode_stack w) as [| mode rest] eqn:Hstack; simpl.
  - rewrite Hstack. auto.
  - rewrite Hstack. unfold get_enable_tracing. simpl.
    destruct (nth_error (mode_heap w) mode) as [[[] tr | | name] |]; simpl; auto.
    + destruct (keeps_ambient_trace kernel unwrap_proxy mode mixed_dtype_op
                  op out_dtype args (set_mode_stack rest w)) as (H1 & H2 & H3).
      destruct (trace_mixed_dtype _ _ _ _ _ _ _ _) as [r w1]. simpl in *.
      rewrite H2. auto.
    + destruct (Hd (set_mode_stack rest w)) as (H1 & H2 & H3).
      destruct (dispatch _ _ _ _) as [r w1]. simpl in *.
      rewrite H2. auto.
Qed.

Lemma keeps_ambient_failing_dispatch (op : op_ref) (d : dtype) (args : list pytree) :
  keeps_ambient (failing_dispatch op d args).
Proof. apply keeps_ambient_raise. Qed.

Lemma mixed_dtype_proxy_keeps_ambient_witness :
  keeps_ambient (mixed_dtype_proxy sample_kernel sample_unwrap_proxy failing_dispatch
                   aten_neg float32 [Leaf (LTensor x_int8)]).
Proof.
  apply (mixed_dtype_proxy_keeps_ambient sample_kernel sample_unwrap_proxy
           failing_dispatch aten_neg float32 [Leaf (LTensor x_int8)]).
  apply keeps_ambient_failing_dispatch.
Defined.

(** X3.  Called without a dispatch mode on the stack, the proxy handler
    fails its assertion ("Mode should always be enabled for python fallback
    key") before it pops, casts, calls or records anything. *)
Theorem mixed_dtype_proxy_without_mode
    (kernel : op_ref -> list pytree -> result pytree)
    (unwrap_proxy : tracer -> leaf -> leaf)
    (dispatch : op_ref -> dtype -> list pytree -> M pytree)
    (op : op_ref) (out_dtype : dtype) (args : list pytree) (w : world) :
  mode_stack w = [] ->
  mixed_dtype_proxy kernel unwrap_proxy dispatch op out_dtype args w
  = (Raise (AssertionError "Mode should always be enabled for python fallback key"),
     w).
Proof.
  intros Hstack.
  unfold mixed_dtype_proxy, bind, _get_current_dispatch_mode. rewrite Hstack.
  reflexivity.
Qed.

Lemma mixed_dtype_proxy_without_mode_witness :
  mixed_dtype_proxy sample_kernel sample_unwrap_proxy failing_dispatch
    aten_neg float32 [Leaf (LTensor x_int8)] eager_world
  = (Raise (AssertionError "Mode should always be enabled for python fallback key"),
     eager_world).
Proof.
  apply (mixed_dtype_proxy_without_mode sample_kernel sample_unwrap_proxy
           failing_dispatch aten_neg float32 [Leaf (LTensor x_int8)] eager_world).
  reflexivity.
Defined.

(* ================================================================= *)
(** ** One traced call, in full *)

Lemma heap_update_twice (id : nat) (f g : mode_obj -> mode_obj) (h : list mode_obj) :
  heap_update id f (heap_update id g h) = heap_update id (fun m => f (g m)) h.
Proof.
  revert id. induction h as [| m h IH]; intros [| id]; simpl; auto.
  now rewrite IH.
Qed.

Lemma heap_update_ext (id : nat) (f g : mode_obj -> mode_obj) (h : list mode_obj) :
  (forall m, f m = g m) -> heap_update id f h = heap_update id g h.
Proof.
  intros Hfg. revert id. induction h as [| m h IH]; intros [| id]; simpl; auto.
  - now rewrite Hfg.
  - now rewrite IH.
Qed.

Lemma length_heap_update (id : nat) (f : mode_obj -> mode_obj) (h : list mode_obj) :
  List.length (heap_update id f h) = List.length h.
Proof.
  revert id. induction h as [| m h IH]; intros [| id]; simpl; auto.
Qed.

Lemma call_OpOverload
    (kernel : op_ref -> list pytree -> result pytree)
    (op : op_ref) (args : list pytree) (w : world) :
  isinstance_OpOverload op = true ->
  call kernel op args w = (kernel op args, add_event (EvCall op args) w).
Proof.
  intros Hop. unfold call. now rewrite (isinstance_OpOverload_kind _ Hop).
Qed.

Lemma trace_mixed_dtype_op_raises
    (kernel : op_ref -> list pytree -> result pytree)
    (unwrap_proxy : tracer -> leaf -> leaf)
    (mode : nat) (func_overload : HigherOrderOperator)
    (op : op_ref) (d : dtype) (args : list pytree) (w : world) (e : exn) :
  isinstance_OpOverload op = true ->
  kernel op (casted d args) = Raise e ->
  trace_mixed_dtype kernel unwrap_proxy mode func_overload op d args w
  = (Raise e, after_call op d args w).
Proof.
  intros Hop Hk. unfold trace_mixed_dtype. rewrite Hop. cbn [negb].
  unfold bind at 1. rewrite traced_call_eq, (call_OpOverload _ _ _ _ Hop).
  fold (casted d args). now rewrite Hk.
Qed.

Lemma trace_mixed_dtype_run
    (kernel : op_ref -> list pytree -> result pytree)
    (unwrap_proxy : tracer -> leaf -> leaf)
    (mode : nat)
    (op : op_ref) (d : dtype) (args : list pytree) (w : world)
    (en : bool) (tr : tracer) (out : pytree) :
  isinstance_OpOverload op = true ->
  nth_error (mode_heap w) mode = Some (ProxyTorchDispatchMode en tr) ->
  kernel op (casted d args) = Ok out ->
  trace_mixed_dtype kernel unwrap_proxy mode mixed_dtype_op op d args w
  = (Ok out,
     set_mode_heap
       (heap_update mode (set_tracer (after_trace unwrap_proxy tr op d args out))
                    (mode_heap w))
       (after_call op d args w)).
Proof.
  intros Hop Hheap Hk.
  set (w1 := after_call op d args w).
  set (tr1 := {| graph := graph tr ++ [recorded_node unwrap_proxy tr op d args];
                 tracked := tracked tr |}).
  set (w2 := set_mode_heap (heap_update mode (set_tracer tr1) (mode_heap w1)) w1).
  assert (H1 : with_disable_proxy_modes_tracing
                 (bind (cast_tensors d args)
                       (fun casted_args => call kernel op casted_args)) w
               = (Ok out, w1)).
  { rewrite traced_call_eq, (call_OpOverload _ _ _ _ Hop).
    fold (casted d args). now rewrite Hk. }
  assert (H2 : get_tracer mode w1 = (Ok tr, w1)).
  { unfold get_tracer. simpl. now rewrite Hheap. }
  assert (Hheap2 : nth_error (mode_heap w2) mode
                   = Some (ProxyTorchDispatchMode en tr1)).
  { simpl. now rewrite (nth_error_heap_update_same _ _ _ _ Hheap). }
  assert (H3 : create_proxy mode "call_function" mixed_dtype_op
                 (star (tree_map (unwrap_proxy tr)
                          (PTuple (Leaf (LOp op) :: Leaf (LDtype d) :: args))))
                 [] "mixed_dtype" w1
               = (Ok {| proxy_node := List.length (graph tr) |}, w2)).
  { unfold create_proxy. now rewrite (bind_run _ _ _ _ _ H2). }
  unfold trace_mixed_dtype. rewrite Hop. cbn [negb].
  rewrite (bind_run _ _ _ _ _ H1), (bind_run _ _ _ _ _ H2),
    (bind_run _ _ _ _ _ H3).
  unfold track_tensor_tree, bind, get_tracer. rewrite Hheap2.
  f_equal. unfold w2, set_mode_heap. simpl. f_equal.
  rewrite heap_update_twice. apply heap_update_ext. now intros [].
Qed.

Lemma push_after_pop (w : world) (mode : nat) (rest : list nat)
    (h : list mode_obj) (op : op_ref) (d : dtype) (args : list pytree) :
  mode_stack w = mode :: rest ->
  set_mode_stack
    (mode :: mode_stack (set_mode_heap h (after_call op d args (set_mode_stack rest w))))
    (set_mode_heap h (after_call op d args (set_mode_stack rest w)))
  = set_mode_heap h (after_call op d args w).
Proof. destruct w; simpl; intros ->; reflexivity. Qed.

Lemma mixed_dtype_proxy_run
    (kernel : op_ref -> list pytree -> result pytree)
    (unwrap_proxy : tracer -> leaf -> leaf)
    (dispatch : op_ref -> dtype -> list pytree -> M pytree)
    (op : op_ref) (d : dtype) (args : list pytree) (w : world)
    (mode : nat) (rest : list nat) (tr : tracer) (out : pytree) :
  mode_stack w = mode :: rest ->
  nth_error (mode_heap w) mode = Some (ProxyTorchDispatchMode true tr) ->
  isinstance_OpOverload op = true ->
  kernel op (casted d args) = Ok out ->
  mixed_dtype_proxy kernel unwrap_proxy dispatch op d args w
  = (Ok out,
     set_mode_heap
       (heap_update mode (set_tracer (after_trace unwrap_proxy tr op d args out))
                    (mode_heap w))
       (after_call op d args w)).
Proof.
  intros Hstack Hheap Hop Hk.
  rewrite (mixed_dtype_proxy_tracing _ _ _ _ _ _ _ _ _ _ Hstack Hheap).
  rewrite (trace_mixed_dtype_run kernel unwrap_proxy mode op d args
             (set_mode_stack rest w) true tr out Hop Hheap Hk).
  f_equal. exact (push_after_pop w mode rest _ op d args Hstack).
Qed.

Lemma mixed_dtype_proxy_op_raises
    (kernel : op_ref -> list pytree -> result pytree)
    (unwrap_proxy : tracer -> leaf -> leaf)
    (dispatch : op_ref -> dtype -> list pytree -> M pytree)
    (op : op_ref) (d : dtype) (args : list pytree) (w : world)
    (mode : nat) (rest : list nat) (tr : tracer) (e : exn) :
  mode_stack w = mode :: rest ->
  nth_error (mode_heap w) mode = Some (ProxyTorchDispatchMode true tr) ->
  isinstance_OpOverload op = true ->
  kernel op (casted d args) = Raise e ->
  mixed_dtype_proxy kernel unwrap_proxy dispatch op d args w
  = (Raise e, after_call op d args w).
Proof.
  intros Hstack Hheap Hop Hk.
  rewrite (mixed_dtype_proxy_tracing _ _ _ _ _ _ _ _ _ _ Hstack Hheap).
  rewrite (trace_mixed_dtype_op_raises _ _ _ _ _ _ _ _ _ Hop Hk).
  f_equal. destruct w; simpl in *; subst; reflexivity.
Qed.

(** X4.  Under capture, when the wrapped operation raises, the proxy handler
    raises the same exception and records nothing: the graph and the capture
    flags of every mode are as before, the mode is back on the stack, and the
    only trace left is the cast and the call in the log. *)
Theorem mixed_dtype_proxy_failed_call_records_nothing
    (kernel : op_ref -> list pytree -> result pytree)
    (unwrap_proxy : tracer -> leaf -> leaf)
    (dispatch : op_ref -> dtype -> list pytree -> M pytree)
    (op : op_ref) (out_dtype : dtype) (args : list pytree) (w : world)
    (mode : nat) (rest : list nat) (tr : tracer) (e : exn) :
  mode_stack w = mode :: rest ->
  nth_error (mode_heap w) mode = Some (ProxyTorchDispatchMode true tr) ->
  isinstance_OpOverload op = true ->
  kernel op (casted out_dtype args) = Raise e ->
  exists w',
    mixed_dtype_proxy kernel unwrap_proxy dispatch op out_dtype args w = (Raise e, w')
    /\ mode_heap w' = mode_heap w
    /\ mode_stack w' = mode_stack w
    /\ tls_excluded w' = tls_excluded w
    /\ log w' = log w ++ [EvCast out_dtype args;
                          EvCall op (casted out_dtype args)].
Proof.
  intros Hstack Hheap Hop Hk.
  rewrite (mixed_dtype_proxy_op_raises _ _ _ _ _ _ _ _ _ _ _ Hstack Hheap Hop Hk).
  eexists. split; [reflexivity |]. simpl. repeat split.
  now rewrite <- app_assoc.
Qed.

Lemma mixed_dtype_proxy_failed_call_records_nothing_witness :
  exists w',
    mixed_dtype_proxy sample_kernel sample_unwrap_proxy failing_dispatch
      aten_fails float32 [Leaf (LTensor x_int8)] tracing_world
    = (Raise (RuntimeError "kernel failed"), w')
    /\ mode_heap w' = mode_heap tracing_world
    /\ mode_stack w' = mode_stack tracing_world
    /\ tls_excluded w' = tls_excluded tracing_world
    /\ log w' = log tracing_world
                ++ [EvCast float32 [Leaf (LTensor x_int8)];
                    EvCall aten_fails (casted float32 [Leaf (LTensor x_int8)])].
Proof.
  apply (mixed_dtype_proxy_failed_call_records_nothing sample_kernel
           sample_unwrap_proxy failing_dispatch aten_fails float32
           [Leaf (LTensor x_int8)] tracing_world 0%nat []
           {| graph := []; tracked := [] |} (RuntimeError "kernel failed"));
    reflexivity.
Defined.

(** X5.  A traced call changes the tracer of the current proxy mode and
    nothing else of the modes: every other mode object, with its graph and
    with the capture flag that was switched off for the call, is afterwards
    what it was before, and the current mode keeps its flag. *)
Theorem mixed_dtype_proxy_touches_current_tracer_only
    (kernel : op_ref -> list pytree -> result pytree)
    (unwrap_proxy : tracer -> leaf -> leaf)
    (dispatch : op_ref -> dtype -> list pytree -> M pytree)
    (op : op_ref) (out_dtype : dtype) (args : list pytree) (w : world)
    (mode : nat) (rest : list nat) (tr : tracer) (out : pytree) :
  mode_stack w = mode :: rest ->
  nth_error (mode_heap w) mode = Some (ProxyTorchDispatchMode true tr) ->
  isinstance_OpOverload op = true ->
  kernel op (casted out_dtype args) = Ok out ->
  exists w',
    mixed_dtype_proxy kernel unwrap_proxy dispatch op out_dtype args w = (Ok out, w')
    /\ (forall i, i <> mode ->
                  nth_error (mode_heap w') i = nth_error (mode_heap w) i)
    /\ (exists tr', nth_error (mode_heap w') mode
                    = Some (ProxyTorchDispatchMode true tr'))
    /\ List.length (mode_heap w') = List.length (mode_heap w).
Proof.
  intros Hstack Hheap Hop Hk.
  rewrite (mixed_dtype_proxy_run _ _ _ _ _ _ _ _ _ _ _ Hstack Hheap Hop Hk).
  eexists. split; [reflexivity |]. simpl. repeat split.
  - intros i Hi. rewrite nth_error_heap_update.
    destruct (Nat.eqb i mode) eqn:E; auto.
    apply Nat.eqb_eq in E. contradiction.
  - eexists. now rewrite (nth_error_heap_update_same _ _ _ _ Hheap).
  - apply length_heap_update.
Qed.

Lemma mixed_dtype_proxy_touches_current_tracer_only_witness :
  exists w',
    mixed_dtype_proxy sample_kernel sample_unwrap_proxy failing_dispatch
      aten_neg float32 [Leaf (LTensor x_int8)] nested_tracing_world
    = (Ok (Leaf (LTensor (Dense float32 false (Converted int8 float32 (Buffer 1))))),
       w')
    /\ (forall i, i <> 0%nat ->
                  nth_error (mode_heap w') i
                  = nth_error (mode_heap nested_tracing_world) i)
    /\ (exists tr', nth_error (mode_heap w') 0
                    = Some (ProxyTorchDispatchMode true tr'))
    /\ List.length (mode_heap w') = List.length (mode_heap nested_tracing_world).
Proof.
  apply (mixed_dtype_proxy_touches_current_tracer_only sample_kernel
           sample_unwrap_proxy failing_dispatch aten_neg float32
           [Leaf (LTensor x_int8)] nested_tracing_world 0%nat [1%nat]
           {| graph := []; tracked := [] |}
           (Leaf (LTensor (Dense float32 false (Converted int8 float32 (Buffer 1))))));
    reflexivity.
Defined.

(** X6.  Capture is transparent for the value: under a proxy mode with
    capture enabled, for an [OpOverload], the proxy handler has the outcome
    of the dense handler on the same inputs, a result or an exception, and
    leaves the same casts and calls in the log. *)
Theorem mixed_dtype_proxy_outcome_is_dense
    (kernel : op_ref -> list pytree -> result pytree)
    (unwrap_proxy : tracer -> leaf -> leaf)
    (dispatch : op_ref -> dtype -> list pytree -> M pytree)
    (op : op_ref) (out_dtype : dtype) (args : list pytree) (w : world)
    (mode : nat) (rest : list nat) (tr : tracer) :
  mode_stack w = mode :: rest ->
  nth_error (mode_heap w) mode = Some (ProxyTorchDispatchMode true tr) ->
  isinstance_OpOverload op = true ->
  fst (mixed_dtype_proxy kernel unwrap_proxy dispatch op out_dtype args w)
  = fst (mixed_dtype_dense kernel op out_dtype args w)
  /\ log (snd (mixed_dtype_proxy kernel unwrap_proxy dispatch op out_dtype args w))
     = log (snd (mixed_dtype_dense kernel op out_dtype args w)).
Proof.
  intros Hstack Hheap Hop.
  rewrite mixed_dtype_dense_eq, (call_OpOverload _ _ _ _ Hop).
  fold (casted out_dtype args).
  destruct (kernel op (casted out_dtype args)) as [out | e] eqn:Hk.
  - rewrite (mixed_dtype_proxy_run _ _ _ _ _ _ _ _ _ _ _ Hstack Hheap Hop Hk).
    split; reflexivity.
  - rewrite (mixed_dtype_proxy_op_raises _ _ _ _ _ _ _ _ _ _ _ Hstack Hheap Hop Hk).
    split; reflexivity.
Qed.

Lemma mixed_dtype_proxy_outcome_is_dense_witness :
  fst (mixed_dtype_proxy sample_kernel sample_unwrap_proxy failing_dispatch
         aten_isfinite int32 [Leaf (LTensor x_int8); Leaf (LInt 3)] tracing_world)
  = fst (mixed_dtype_dense sample_kernel aten_isfinite int32
           [Leaf (LTensor x_int8); Leaf (LInt 3)] tracing_world)
  /\ log (snd (mixed_dtype_proxy sample_kernel sample_unwrap_proxy failing_dispatch
                 aten_isfinite int32 [Leaf (LTensor x_int8); Leaf (LInt 3)]
                 tracing_world))
     = log (snd (mixed_dtype_dense sample_kernel aten_isfinite int32
                   [Leaf (LTensor x_int8); Leaf (LInt 3)] tracing_world)).
Proof.
  apply (mixed_dtype_proxy_outcome_is_dense sample_kernel sample_unwrap_proxy
           failing_dispatch aten_isfinite int32
           [Leaf (LTensor x_int8); Leaf (LInt 3)] tracing_world 0%nat []
           {| graph := []; tracked := [] |});
    reflexivity.
Defined.

(** X7.  With capture switched off on the current proxy mode, the handler
    calls the operator again with that mode taken off the stack and hands
    back its outcome; the operation reference is not inspected (one that is
    not an [OpOverload] is passed on), and the handler itself records
    nothing: modes and log are those the nested call left. *)
Theorem mixed_dtype_proxy_capture_disabled
    (kernel : op_ref -> list pytree -> result pytree)
    (unwrap_proxy : tracer -> leaf -> leaf)
    (dispatch : op_ref -> dtype -> list pytree -> M pytree)
    (op : op_ref) (out_dtype : dtype) (args : list pytree) (w : world)
    (mode : nat) (rest : list nat) (tr : tracer) :
  mode_stack w = mode :: rest ->
  nth_error (mode_heap w) mode = Some (ProxyTorchDispatchMode false tr) ->
  let nested := dispatch op out_dtype args (set_mode_stack rest w) in
  let exit := mixed_dtype_proxy kernel unwrap_proxy dispatch op out_dtype args w in
  mode_stack (set_mode_stack rest w) = rest
  /\ fst exit = fst nested
  /\ mode_heap (snd exit) = mode_heap (snd nested)
  /\ log (snd exit) = log (snd nested)
  /\ mode_stack (snd exit) = mode :: mode_stack (snd nested).
Proof.
  intros Hstack Hheap nested exit. subst exit.
  rewrite (mixed_dtype_proxy_not_tracing _ _ _ _ _ _ _ _ _ _ Hstack Hheap).
  fold nested. destruct nested as [r w1]. simpl. auto.
Qed.

Lemma mixed_dtype_proxy_capture_disabled_witness :
  let w := paused_tracing_world in
  let dispatch := mixed_dtype_dense sample_kernel in
  let args := [Leaf (LTensor x_int8)] in
  let nested := dispatch aten_neg_packet float32 args (set_mode_stack [] w) in
  let exit := mixed_dtype_proxy sample_kernel sample_unwrap_proxy dispatch
                aten_neg_packet float32 args w in
  mode_stack (set_mode_stack [] w) = []
  /\ fst exit = fst nested
  /\ mode_heap (snd exit) = mode_heap (snd nested)
  /\ log (snd exit) = log (snd nested)
  /\ mode_stack (snd exit) = 0%nat :: mode_stack (snd nested).
Proof.
  apply (mixed_dtype_proxy_capture_disabled sample_kernel sample_unwrap_proxy
           (mixed_dtype_dense sample_kernel) aten_neg_packet float32
           [Leaf (LTensor x_int8)] paused_tracing_world 0%nat []
           {| graph := []; tracked := [] |});
    reflexivity.
Defined.

(** X8.  Traced calls compose in order: two calls of the proxy handler under
    the same proxy mode leave the graph with two more nodes, the first call's
    node before the second's, and the second node is made against the tracer
    as the first call left it; each result is associated with the proxy of
    its own node. *)
Theorem mixed_dtype_proxy_twice
    (kernel : op_ref -> list pytree -> result pytree)
    (unwrap_proxy : tracer -> leaf -> leaf)
    (dispatch : op_ref -> dtype -> list pytree -> M pytree)
    (op1 op2 : op_ref) (d1 d2 : dtype) (args1 args2 : list pytree) (w : world)
    (mode : nat) (rest : list nat) (tr : tracer) (out1 out2 : pytree) :
  mode_stack w = mode :: rest ->
  nth_error (mode_heap w) mode = Some (ProxyTorchDispatchMode true tr) ->
  isinstance_OpOverload op1 = true ->
  isinstance_OpOverload op2 = true ->
  kernel op1 (casted d1 args1) = Ok out1 ->
  kernel op2 (casted d2 args2) = Ok out2 ->
  let tr1 := after_trace unwrap_proxy tr op1 d1 args1 out1 in
  exists w',
    bind (mixed_dtype_proxy kernel unwrap_proxy dispatch op1 d1 args1)
         (fun _ => mixed_dtype_proxy kernel unwrap_proxy dispatch op2 d2 args2) w
    = (Ok out2, w')
    /\ nth_error (mode_heap w') mode
       = Some (ProxyTorchDispatchMode true
                 {| graph := graph tr
                             ++ [recorded_node unwrap_proxy tr op1 d1 args1;
                                 recorded_node unwrap_proxy tr1 op2 d2 args2];
                    tracked := tracked tr
                               ++ [(out1, {| proxy_node := List.length (graph tr) |});
                                   (out2, {| proxy_node := S (List.length (graph tr)) |})]
                 |})
    /\ mode_stack w' = mode_stack w.
Proof.
  intros Hstack Hheap Hop1 Hop2 Hk1 Hk2 tr1.
  pose proof (mixed_dtype_proxy_run kernel unwrap_proxy dispatch op1 d1 args1 w
                mode rest tr out1 Hstack Hheap Hop1 Hk1) as Hrun1.
  set (w1 := set_mode_heap (heap_update mode (set_tracer tr1) (mode_heap w))
                           (after_call op1 d1 args1 w)) in *.
  assert (Hstack1 : mode_stack w1 = mode :: rest) by exact Hstack.
  assert (Hheap1 : nth_error (mode_heap w1) mode
                   = Some (ProxyTorchDispatchMode true tr1)).
  { simpl. now rewrite (nth_error_heap_update_same _ _ _ _ Hheap). }
  rewrite (bind_run _ _ _ _ _ Hrun1). cbv beta.
  subst w1 tr1.
  rewrite (mixed_dtype_proxy_run kernel unwrap_proxy dispatch op2 d2 args2 _
             mode rest _ out2 Hstack1 Hheap1 Hop2 Hk2).
  eexists. split; [reflexivity |]. split; [| reflexivity].
  simpl mode_heap. simpl mode_heap in Hheap1.
  rewrite (nth_error_heap_update_same _ _ _ _ Hheap1).
  unfold set_tracer, after_trace. simpl.
  rewrite <- !app_assoc, length_app. simpl.
  now rewrite Nat.add_1_r.
Qed.

Lemma mixed_dtype_proxy_twice_witness :
  let tr := {| graph := []; tracked := [] |} in
  let out := Leaf (LTensor (Dense float32 false (Converted int8 float32 (Buffer 1)))) in
  let out' := Leaf (LTensor (Dense bool_dtype false (Buffer 7))) in
  let tr1 := after_trace sample_unwrap_proxy tr aten_neg float32
               [Leaf (LTensor x_int8)] out in
  exists w',
    bind (mixed_dtype_proxy sample_kernel sample_unwrap_proxy failing_dispatch
            aten_neg float32 [Leaf (LTensor x_int8)])
         (fun _ => mixed_dtype_proxy sample_kernel sample_unwrap_proxy
                     failing_dispatch aten_isfinite int32 [Leaf (LTensor x_int8)])
         tracing_world
    = (Ok out', w')
    /\ nth_error (mode_heap w') 0
       = Some (ProxyTorchDispatchMode true
                 {| graph := graph tr
                             ++ [recorded_node sample_unwrap_proxy tr aten_neg float32
                                   [Leaf (LTensor x_int8)];
                                 recorded_node sample_unwrap_proxy tr1 aten_isfinite
                                   int32 [Leaf (LTensor x_int8)]];
                    tracked := tracked tr
                               ++ [(out, {| proxy_node := List.length (graph tr) |});
                                   (out', {| proxy_node := S (List.length (graph tr)) |})]
                 |})
    /\ mode_stack w' = mode_stack tracing_world.
Proof.
  apply (mixed_dtype_proxy_twice sample_kernel sample_unwrap_proxy failing_dispatch
           aten_neg aten_isfinite float32 int32
           [Leaf (LTensor x_int8)] [Leaf (LTensor x_int8)] tracing_world 0%nat []
           {| graph := []; tracked := [] |}
           (Leaf (LTensor (Dense float32 false (Converted int8 float32 (Buffer 1)))))
           (Leaf (LTensor (Dense bool_dtype false (Buffer 7)))));
    reflexivity.
Defined.

(* ================================================================= *)
(** ** Casting what is cast already *)

Lemma to_same_dtype (d : dtype) (t : tensor) :
  tensor_dtype t = d -> to d t = t.
Proof.
  induction t as [dt rg s | l rg v IH]; simpl; intros H.
  - subst. now rewrite dtype_eqb_refl.
  - now rewrite IH.
Qed.

Lemma tree_map_only_fixed (fn : tensor -> tensor) (t : pytree) :
  (forall x, In x (tensors_of t) -> fn x = x) -> tree_map_only_Tensor fn t = t.
Proof.
  unfold tree_map_only_Tensor, tensors_of.
  induction t as [l | xs IH | xs IH | kvs IH] using pytree_ind'; simpl.
  - intros H. destruct l; simpl in *; auto. rewrite H; auto.
  - intros H. f_equal. induction IH as [| x xs Hx _ IHxs]; simpl in *; auto.
    rewrite flat_map_app in H. f_equal.
    + apply Hx. intros y Hy. apply H, in_or_app. now left.
    + apply IHxs. intros y Hy. apply H, in_or_app. now right.
  - intros H. f_equal. induction IH as [| x xs Hx _ IHxs]; simpl in *; auto.
    rewrite flat_map_app in H. f_equal.
    + apply Hx. intros y Hy. apply H, in_or_app. now left.
    + apply IHxs. intros y Hy. apply H, in_or_app. now right.
  - intros H. f_equal. induction IH as [| [k x] kvs Hx _ IHxs]; simpl in *; auto.
    rewrite flat_map_app in H. f_equal.
    + f_equal. apply Hx. intros y Hy. apply H, in_or_app. now left.
    + apply IHxs. intros y Hy. apply H, in_or_app. now right.
Qed.

Lemma casted_same_dtype (d : dtype) (args : list pytree) :
  all_tensors_dtype d (PTuple args) = true -> casted d args = args.
Proof.
  intros H.
  assert (E : tree_map_only_Tensor (to d) (PTuple args) = PTuple args).
  { apply tree_map_only_fixed. intros x Hx. apply to_same_dtype.
    unfold all_tensors_dtype in H. rewrite forallb_forall in H.
    now apply dtype_eqb_eq, H. }
  unfold casted. unfold tree_map_only_Tensor in E. simpl in E.
  now injection E.
Qed.

(** X9.  Casting is idempotent, so handing the dense handler arguments that
    were cast to the target precision beforehand changes nothing: the wrapped
    operation is called with the very same arguments and the outcome is the
    same; and arguments whose tensors all have the target precision already
    are handed to the operation as they are. *)
Theorem mixed_dtype_dense_on_casted_args
    (kernel : op_ref -> list pytree -> result pytree)
    (op : op_ref) (out_dtype : dtype) (args : list pytree) (w : world) :
  casted out_dtype (casted out_dtype args) = casted out_dtype args
  /\ fst (mixed_dtype_dense kernel op out_dtype (casted out_dtype args) w)
     = fst (mixed_dtype_dense kernel op out_dtype args w)
  /\ (all_tensors_dtype out_dtype (PTuple args) = true ->
      mixed_dtype_dense kernel op out_dtype args w
      = call kernel op args (add_event (EvCast out_dtype args) w)).
Proof.
  assert (Hidem : casted out_dtype (casted out_dtype args) = casted out_dtype args).
  { apply casted_same_dtype.
    exact (all_tensors_dtype_cast out_dtype (PTuple args)). }
  split; [exact Hidem |]. split.
  - rewrite !mixed_dtype_dense_eq. fold (casted out_dtype (casted out_dtype args)).
    fold (casted out_dtype args). rewrite Hidem.
    unfold call. destruct (op_kind_of op); reflexivity.
  - intros H. rewrite mixed_dtype_dense_eq. fold (casted out_dtype args).
    now rewrite (casted_same_dtype _ _ H).
Qed.

Lemma mixed_dtype_dense_on_casted_args_witness :
  let args := [PList [Leaf (LTensor (Dense float32 false (Buffer 4)))]; Leaf (LInt 3)] in
  mixed_dtype_dense sample_kernel aten_neg float32 args eager_world
  = call sample_kernel aten_neg args (add_event (EvCast float32 args) eager_world).
Proof.
  intros args.
  apply (mixed_dtype_dense_on_casted_args sample_kernel aten_neg float32 args
           eager_world).
  reflexivity.
Defined.

(* ================================================================= *)
(** ** The operator outside functionalization *)

Lemma any_requires_grad_has_tensor (args : list pytree) :
  any_requires_grad args = true ->
  existsb isinstance_Tensor (tree_flatten (PTuple args)) = true.
Proof.
  unfold any_requires_grad, tensors_of.
  induction (tree_flatten (PTuple args)) as [| l ls IH]; simpl; [discriminate |].
  rewrite existsb_app. intros H. apply orb_true_iff in H as [H | H].
  - destruct l; simpl in *; try discriminate. reflexivity.
  - rewrite (IH H). apply orb_true_r.
Qed.

(** X10.  Without a functorch interpreter on the stack and with the autograd
    key not excluded, calling the operator on arguments of which some tensor
    leaf requires gradient tracking fails with the assertion error of the
    autograd handler, whatever modes are on the mode stack; nothing is cast,
    called or recorded, and the world is as it was. *)
Theorem mixed_dtype_rejects_requires_grad
    (kernel : op_ref -> list pytree -> result pytree)
    (unwrap_proxy : tracer -> leaf -> leaf)
    (fuel : nat) (op : op_ref) (out_dtype : dtype) (args : list pytree) (w : world) :
  dynamic_layer_stack w = [] ->
  key_in AutogradCPU (tls_excluded w) = false ->
  any_requires_grad args = true ->
  mixed_dtype kernel unwrap_proxy (S fuel) op out_dtype args w
  = (Raise (AssertionError ""), w).
Proof.
  intros Hstack Hkey Hgrad. simpl.
  unfold select. rewrite Hstack, Hkey.
  rewrite (any_requires_grad_has_tensor _ Hgrad). simpl.
  destruct (negb (key_in FuncTorchDynamicLayerFrontMode (tls_excluded w)) && true);
    rewrite mixed_dtype_autograd_eq, Hgrad; reflexivity.
Qed.

Lemma mixed_dtype_rejects_requires_grad_witness :
  mixed_dtype sample_kernel sample_unwrap_proxy 1 aten_neg float32
    [Leaf (LInt 3); PList [Leaf (LTensor x_grad)]] tracing_world
  = (Raise (AssertionError ""), tracing_world).
Proof.
  apply (mixed_dtype_rejects_requires_grad sample_kernel sample_unwrap_proxy 0
           aten_neg float32 [Leaf (LInt 3); PList [Leaf (LTensor x_grad)]]
           tracing_world);
    reflexivity.
Defined.

Lemma select_outside_functionalization (w : world) (args : list pytree) :
  dynamic_layer_stack w = [] ->
  no_functional_leaf args = true ->
  match select mixed_dtype_op w args with
  | H_Functorch _ => False
  | H_Autograd => key_in AutogradCPU (tls_excluded w) = false
  | H_Functionalize => False
  | H_Mode mode => exists rest, mode_stack w = mode :: rest
  | H_Dense => True
  end.
Proof.
  unfold no_functional_leaf, select. intros Hstack Hleaf.
  apply negb_true_iff in Hleaf. rewrite Hstack, Hleaf. simpl.
  repeat match goal with
         | |- context [key_in ?k (tls_excluded w)] =>
             destruct (key_in k (tls_excluded w))
         end;
    repeat match goal with
           | |- context [existsb ?f ?l] => destruct (existsb f l)
           end;
    destruct (mode_stack w); simpl; eauto.
Qed.

Lemma dense_outcome
    (kernel : op_ref -> list pytree -> result pytree)
    (op : op_ref) (d : dtype) (args : list pytree) (w : world) :
  isinstance_OpOverload op = true ->
  fst (mixed_dtype_dense kernel op d args w) = kernel op (casted d args)
  /\ log (snd (mixed_dtype_dense kernel op d args w))
     = log w ++ [EvCast d args; EvCall op (casted d args)].
Proof.
  intros Hop. rewrite mixed_dtype_dense_eq, (call_OpOverload _ _ _ _ Hop).
  simpl. split; [reflexivity |]. now rewrite <- app_assoc.
Qed.

Lemma mixed_dtype_outside_functionalization
    (kernel : op_ref -> list pytree -> result pytree)
    (unwrap_proxy : tracer -> leaf -> leaf)
    (op : op_ref) (d : dtype) (args : list pytree) :
  isinstance_OpOverload op = true ->
  any_requires_grad args = false ->
  no_functional_leaf args = true ->
  forall (fuel : nat) (w : world),
    dynamic_layer_stack w = [] ->
    supported_world w = true ->
    (depth w < fuel)%nat ->
    fst (mixed_dtype kernel unwrap_proxy fuel op d args w) = kernel op (casted d args)
    /\ log (snd (mixed_dtype kernel unwrap_proxy fuel op d args w))
       = log w ++ [EvCast d args; EvCall op (casted d args)].
Proof.
  intros Hop Hgrad Hleaf. induction fuel as [| fuel IH]; intros w Hstack Hw Hfuel.
  - lia.
  - simpl. pose proof (select_outside_functionalization w args Hstack Hleaf) as Hsel.
    pose proof Hw as Hw'. apply andb_true_iff in Hw' as [Hmodes Hlayers].
    destruct (select mixed_dtype_op w args) as [interp | | | mode |];
      try contradiction.
    + (* autograd *)
      rewrite mixed_dtype_autograd_eq, Hgrad.
      destruct (IH (guarded [AutogradCPU] w)) as [Hres Hlog]; auto.
      * unfold depth in *. rewrite (tls_excluded_guarded_fresh _ _ Hsel).
        rewrite !key_in_cons. simpl. rewrite Hsel in Hfuel.
        destruct (DispatchKey_eq_dec AutogradCPU AutogradCPU); [| congruence].
        destruct (DispatchKey_eq_dec AutogradCPU Functionalize); [discriminate |].
        lia.
      * destruct (mixed_dtype kernel unwrap_proxy fuel op d args _)
          as [[res | e] w2]; simpl in *; auto.
    + (* a dispatch mode *)
      destruct Hsel as [rest Hms].
      assert (Hmode : supported_mode (mode_heap w) mode = true).
      { rewrite Hms in Hmodes. simpl in Hmodes.
        now apply andb_true_iff in Hmodes. }
      unfold supported_mode in Hmode.
      destruct (nth_error (mode_heap w) mode) as [[[] tr | | name] |] eqn:Hheap;
        try discriminate.
      * destruct (kernel op (casted d args)) as [out | e] eqn:Hk.
        -- rewrite (mixed_dtype_proxy_run _ _ _ _ _ _ _ _ _ _ _ Hms Hheap Hop Hk).
           simpl. split; [reflexivity |]. now rewrite <- app_assoc.
        -- rewrite (mixed_dtype_proxy_op_raises _ _ _ _ _ _ _ _ _ _ _
                      Hms Hheap Hop Hk).
           simpl. split; [reflexivity |]. now rewrite <- app_assoc.
      * rewrite (mixed_dtype_proxy_not_tracing _ _ _ _ _ _ _ _ _ _ Hms Hheap).
        destruct (IH (set_mode_stack rest w)) as [Hres Hlog]; auto.
        -- unfold supported_world. simpl. rewrite Hlayers, andb_true_r.
           rewrite Hms in Hmodes. simpl in Hmodes.
           now apply andb_true_iff in Hmodes.
        -- unfold depth in *. simpl. rewrite Hms in Hfuel. simpl in Hfuel. lia.
        -- destruct (mixed_dtype kernel unwrap_proxy fuel op d args _)
             as [r w2]; simpl in *; auto.
      * now apply dense_outcome.
    + now apply dense_outcome.
Qed.

(** X11.  Outside functionalization (no functorch interpreter, no
    functionalized tensor among the arguments), in eager mode or under any
    nesting of proxy and fake-tensor modes, with an [OpOverload] and arguments
    without gradient tracking, the operator has exactly the outcome of the
    wrapped operation on the casted arguments, a result or an exception, and
    the operation is called exactly once. *)
Theorem mixed_dtype_outcome_is_kernel_outcome
    (kernel : op_ref -> list pytree -> result pytree)
    (unwrap_proxy : tracer -> leaf -> leaf)
    (fuel : nat) (op : op_ref) (out_dtype : dtype) (args : list pytree) (w : world) :
  isinstance_OpOverload op = true ->
  any_requires_grad args = false ->
  no_functional_leaf args = true ->
  dynamic_layer_stack w = [] ->
  supported_world w = true ->
  (depth w < fuel)%nat ->
  fst (mixed_dtype kernel unwrap_proxy fuel op out_dtype args w)
  = kernel op (casted out_dtype args)
  /\ log (snd (mixed_dtype kernel unwrap_proxy fuel op out_dtype args w))
     = log w ++ [EvCast out_dtype args; EvCall op (casted out_dtype args)].
Proof.
  intros Hop Hgrad Hleaf Hstack Hw Hfuel.
  now apply mixed_dtype_outside_functionalization.
Qed.

Lemma mixed_dtype_outcome_is_kernel_outcome_witness :
  fst (mixed_dtype sample_kernel sample_unwrap_proxy 5 aten_fails float32
         [Leaf (LTensor x_int8)] nested_tracing_world)
  = sample_kernel aten_fails (casted float32 [Leaf (LTensor x_int8)])
  /\ log (snd (mixed_dtype sample_kernel sample_unwrap_proxy 5 aten_fails float32
                 [Leaf (LTensor x_int8)] nested_tracing_world))
     = log nested_tracing_world
       ++ [EvCast float32 [Leaf (LTensor x_int8)];
           EvCall aten_fails (casted float32 [Leaf (LTensor x_int8)])].
Proof.
  apply (mixed_dtype_outcome_is_kernel_outcome sample_kernel sample_unwrap_proxy 5
           aten_fails float32 [Leaf (LTensor x_int8)] nested_tracing_world);
    try reflexivity.
  vm_compute. lia.
Defined.

(* ================================================================= *)
(** ** The operator under functionalization *)

(** X13.  Under one functionalization interpreter, with an [OpOverload] and
    arguments that, once unwrapped, are plain tensors without gradient
    tracking, the operator returns what the wrapped operation returns on the
    unwrapped and casted arguments, every tensor of it wrapped at the
    interpreter's level; an exception of the operation is passed on as it is;
    the operation is called exactly once. *)
Theorem mixed_dtype_under_functionalize
    (kernel : op_ref -> list pytree -> result pytree)
    (unwrap_proxy : tracer -> leaf -> leaf)
    (fuel : nat) (op : op_ref) (out_dtype : dtype) (args : list pytree)
    (w : world) (interp : interpreter) :
  let unwrapped_args :=
    map (fun arg => _unwrap_all_tensors_from_functional arg
                      (i_functionalize_add_back_views interp)) args in
  isinstance_OpOverload op = true ->
  dynamic_layer_stack w = [interp] ->
  i_key interp = TT_Functionalize ->
  key_in FuncTorchDynamicLayerFrontMode (tls_excluded w) = false ->
  any_requires_grad unwrapped_args = false ->
  no_functional_leaf unwrapped_args = true ->
  supported_world w = true ->
  (depth w <= fuel)%nat ->
  fst (mixed_dtype kernel unwrap_proxy (S fuel) op out_dtype args w)
  = match kernel op (casted out_dtype unwrapped_args) with
    | Ok res => Ok (_wrap_all_tensors_to_functional res (i_level interp))
    | Raise e => Raise e
    end
  /\ log (snd (mixed_dtype kernel unwrap_proxy (S fuel) op out_dtype args w))
     = log w ++ [EvCast out_dtype unwrapped_args;
                 EvCall op (casted out_dtype unwrapped_args)].
Proof.
  intros unwrapped_args Hop Hstack Hkey Hfront Hgrad Hleaf Hw Hfuel.
  assert (Hsel : select mixed_dtype_op w args = H_Functorch interp).
  { unfold select. now rewrite Hstack, Hfront. }
  simpl. rewrite Hsel, Hkey, mixed_dtype_func'_eq. cbv zeta. rewrite Hstack.
  fold unwrapped_args.
  destruct (mixed_dtype_outside_functionalization kernel unwrap_proxy op out_dtype
              unwrapped_args Hop Hgrad Hleaf fuel (lowered w)) as [Hres Hlog].
  - unfold lowered. simpl. now rewrite Hstack.
  - apply andb_true_iff in Hw as [Hmodes _].
    unfold supported_world, lowered. simpl. rewrite Hmodes, Hstack. reflexivity.
  - unfold depth, lowered in *. simpl. rewrite Hstack in *. simpl in *. lia.
  - destruct (mixed_dtype kernel unwrap_proxy fuel op out_dtype unwrapped_args _)
      as [[res | e] w2]; simpl in *; rewrite <- Hres; auto.
Qed.

Lemma mixed_dtype_under_functionalize_witness :
  let args := [Leaf (LTensor (FunctionalTensorWrapper 1 false x_int8)); Leaf (LInt 3)] in
  let unwrapped_args := [Leaf (LTensor x_int8); Leaf (LInt 3)] in
  fst (mixed_dtype sample_kernel sample_unwrap_proxy 4 aten_neg float32 args
         functorch_world)
  = match sample_kernel aten_neg (casted float32 unwrapped_args) with
    | Ok res => Ok (_wrap_all_tensors_to_functional res 1)
    | Raise e => Raise e
    end
  /\ log (snd (mixed_dtype sample_kernel sample_unwrap_proxy 4 aten_neg float32 args
                 functorch_world))
     = log functorch_world
       ++ [EvCast float32 unwrapped_args;
           EvCall aten_neg (casted float32 unwrapped_args)].
Proof.
  intros args unwrapped_args.
  apply (mixed_dtype_under_functionalize sample_kernel sample_unwrap_proxy 3
           aten_neg float32 args functorch_world
           {| i_key := TT_Functionalize; i_level := 1;
              i_functionalize_add_back_views := false |});
    reflexivity.
Defined.
